(** * rag_groq: user-profile store and prompt assembly

    A shallow embedding of [src/rag_groq.py]: the [UserContextDB] class (an
    in-memory dictionary of user profiles mirrored to a JSON file) and the
    [SimpleRAG] class (document list, conversation history, prompt assembly
    and the call to the completion client); and of the console of
    [src/main.py] that drives them.

    Python objects are records that the operations take and return; what
    lies outside the two classes (the file system, the process environment,
    standard output and the completion endpoint) is collected in [World] and
    threaded through the [IO] state monad. *)

From Stdlib Require QArith.QArith_base.
From stdpp Require Import gmap strings list fin_maps pretty.

(** ** Python values used by the module *)

(** The line feed of Python's ["\n"]. *)
Definition LF : string := String (Ascii.ascii_of_nat 10) EmptyString.

(** [sep.join(items)] *)
Definition join (sep : string) (items : list string) : string :=
  String.concat sep items.

(** Truth value of an optional [str] argument: [None] and the empty string are falsy. *)
Definition truthy_str (s : option string) : bool :=
  match s with
  | Some s => negb (String.eqb s EmptyString)
  | None => false
  end.

(** Truth value of an optional [list] argument: [None] and [[]] are falsy. *)
Definition truthy_list {A} (l : option (list A)) : bool :=
  match l with
  | Some (_ :: _) => true
  | _ => false
  end.

(** [a or b] where [a] is an optional [str] and [b] a [str]. *)
Definition or_str (a : option string) (b : string) : string :=
  match a with
  | Some s => if truthy_str a then s else b
  | None => b
  end.

(** [a or b] where [a] is an optional [list] and [b] a [list]. *)
Definition or_list {A} (a : option (list A)) (b : list A) : list A :=
  match a with
  | Some l => if truthy_list a then l else b
  | None => b
  end.

(** [items[-n:]]: the last [n] items, or all of them when there are fewer. *)
Definition slice_last {A} (n : nat) (items : list A) : list A :=
  drop (length items - n) items.

(** A raised exception, identified with [str(e)]. *)
Definition Exception : Type := string.

(** ** Dictionaries of the module, as records *)

(** A user profile: the dict built by [create_or_update_user]. *)
Module Profile.
Record t : Type := mk {
  user_id : string;
  name : string;
  preferences : list string;
  purchase_history : list string;
}.

#[global] Instance eq_dec : EqDecision t.
Proof. solve_decision. Defined.
End Profile.

(** A loaded document: the [doc_entry] dict of [load_pdf]. *)
Module Doc.
Record t : Type := mk {
  name : string;
  text : string;
  pages : nat;
  char_count : nat;
}.

#[global] Instance eq_dec : EqDecision t.
Proof. solve_decision. Defined.
End Doc.

(** A chat message or conversation turn: [{"role": ..., "content": ...}]. *)
Module Message.
Record t : Type := mk {
  role : string;
  content : string;
}.

#[global] Instance eq_dec : EqDecision t.
Proof. solve_decision. Defined.
End Message.

(** The keyword arguments of [client.chat.completions.create]. *)
Module Request.
Record t : Type := mk {
  model : string;
  messages : list Message.t;
  temperature : QArith_base.Q;
  max_tokens : nat;
}.
End Request.

(** What the code reads off the object returned by the completion call. *)
Module Response.
Record t : Type := mk {
  (** [response.choices[0].message.content], [None] when that access raises *)
  first_choice_content : option string;
  (** [getattr(response, "text", None)] *)
  text : option string;
  (** [str(response)] *)
  str : string;
}.
End Response.

(** A configured client: the outcome of one completion request, either an
    exception or a response object. *)
Definition Client : Type := Request.t → Exception + Response.t.

(** ** The world outside the two classes *)

Record World : Type := mkWorld {
  (** the files that exist, by path, with their text *)
  files : gmap string string;
  (** paths that cannot be opened for writing, with the error raised *)
  write_errors : gmap string Exception;
  (** paths that cannot be opened for reading, with the error raised *)
  read_errors : gmap string Exception;
  (** [os.environ] *)
  environ : gmap string string;
  (** the module-level name [Groq]: [None] when the import failed, otherwise
      the constructor taking the API key *)
  Groq : option (string → Exception + Client);
  (** lines printed so far *)
  stdout : list string;
  (** requests sent to the completion endpoint so far *)
  outbound : list Request.t;
}.

Definition IO (A : Type) : Type := World → A * World.

Definition ret {A} (x : A) : IO A := λ w, (x, w).

Definition bind {A B} (m : IO A) (k : A → IO B) : IO B :=
  λ w, let '(x, w') := m w in k x w'.

Notation "'do' x <- m ; k" := (bind m (λ x, k))
  (at level 10, x name, m at level 100, k at level 200).
Notation "'do' ' p <- m ; k" := (bind m (λ x, let 'p := x in k))
  (at level 10, p pattern, m at level 100, k at level 200).
Notation "m ;; k" := (bind m (λ _, k))
  (at level 100, k at level 200, right associativity).

(** [print(line)]; a character outside ASCII in a printed line stands as
    its UTF-8 bytes. *)
Definition print (line : string) : IO unit := λ w,
  (tt, mkWorld (files w) (write_errors w) (read_errors w) (environ w)
         (Groq w) (stdout w ++ [line]) (outbound w)).

(** [os.getenv(key)] *)
Definition getenv (key : string) : IO (option string) := λ w,
  (environ w !! key, w).

(** [os.path.exists(path)] *)
Definition path_exists (path : string) : IO bool := λ w,
  (bool_decide (is_Some (files w !! path)), w).

(** [with open(path, 'w') as f: f.write(data)] *)
Definition write_file (path data : string) : IO (Exception + unit) := λ w,
  match write_errors w !! path with
  | Some e => (inl e, w)
  | None =>
      (inr tt, mkWorld (<[path := data]> (files w)) (write_errors w)
                 (read_errors w) (environ w) (Groq w) (stdout w) (outbound w))
  end.

(** [with open(path, 'r') as f: f.read()] *)
Definition read_file (path : string) : IO (Exception + string) := λ w,
  match read_errors w !! path with
  | Some e => (inl e, w)
  | None =>
      match files w !! path with
      | Some data => (inr data, w)
      | None => (inl ("[Errno 2] No such file or directory: '" +:+ path +:+ "'"), w)
      end
  end.

(** [client.chat.completions.create(...)]: the request leaves the process
    and the client's outcome comes back. *)
Definition chat_completions_create (client : Client) (req : Request.t)
  : IO (Exception + Response.t) := λ w,
  (client req, mkWorld (files w) (write_errors w) (read_errors w) (environ w)
                 (Groq w) (stdout w) (outbound w ++ [req])).

(** ** The [json] library, on the values the store holds

    [json.dump(obj, f, indent=2)] and [json.load(f)] for objects, arrays and
    strings. A [str] is the sequence of its code points, each below 256. *)
Module Json.

#[warnings="-register-all"]
Inductive value : Type :=
| JString (s : string)
| JArray (items : list value)
| JObject (members : list (string * value)).

(** *** Encoder *)

Definition DQUOTE : Ascii.ascii := Ascii.ascii_of_nat 34.
Definition BACKSLASH : Ascii.ascii := Ascii.ascii_of_nat 92.

Definition hex_digit (n : nat) : Ascii.ascii :=
  Ascii.ascii_of_nat (if n <? 10 then 48 + n else 87 + n).

(** One character of [py_encode_basestring_ascii]: the short escapes of
    [ESCAPE_DCT], printable ASCII as it is, anything else as [\u00xx]. *)
Definition escape_char (c : Ascii.ascii) : string :=
  let n := Ascii.nat_of_ascii c in
  if n =? 34 then String BACKSLASH (String DQUOTE EmptyString)
  else if n =? 92 then String BACKSLASH (String BACKSLASH EmptyString)
  else if n =? 10 then String BACKSLASH "n"
  else if n =? 13 then String BACKSLASH "r"
  else if n =? 9 then String BACKSLASH "t"
  else if n =? 8 then String BACKSLASH "b"
  else if n =? 12 then String BACKSLASH "f"
  else if (32 <=? n) && (n <=? 126) then String c EmptyString
  else String BACKSLASH
         ("u00" +:+ String (hex_digit (n / 16))
                      (String (hex_digit (n mod 16)) EmptyString)).

Fixpoint escape (s : string) : string :=
  match s with
  | EmptyString => EmptyString
  | String c rest => escape_char c +:+ escape rest
  end.

Definition encode_string (s : string) : string :=
  String DQUOTE (escape s +:+ String DQUOTE EmptyString).

Fixpoint spaces (n : nat) : string :=
  match n with
  | O => EmptyString
  | S n => String (Ascii.ascii_of_nat 32) (spaces n)
  end.

(** [newline_indent] at nesting depth [level], for [indent=2] *)
Definition newline_indent (level : nat) : string :=
  LF +:+ spaces (2 * level).

(** [_iterencode] at nesting depth [level] *)
Fixpoint encode (level : nat) (v : value) : string :=
  match v with
  | JString s => encode_string s
  | JArray [] => "[]"
  | JArray items =>
      "[" +:+ newline_indent (S level)
        +:+ join ("," +:+ newline_indent (S level))
              (map (encode (S level)) items)
        +:+ newline_indent level +:+ "]"
  | JObject [] => "{}"
  | JObject members =>
      "{" +:+ newline_indent (S level)
        +:+ join ("," +:+ newline_indent (S level))
              (map (λ kv, encode_string kv.1 +:+ ": " +:+ encode (S level) kv.2)
                 members)
        +:+ newline_indent level +:+ "}"
  end.

Definition dumps (v : value) : string := encode 0 v.

(** *** Decoder: scanner *)

Inductive token : Type :=
| TLBrace | TRBrace | TLBracket | TRBracket | TComma | TColon
| TString (s : string).

Inductive scan_state : Type :=
| Outside
| InString (acc : string)
| Escaped (acc : string)
| Unicode (acc : string) (digits : list nat).

Definition hex_value (c : Ascii.ascii) : option nat :=
  let n := Ascii.nat_of_ascii c in
  if (48 <=? n) && (n <=? 57) then Some (n - 48)
  else if (97 <=? n) && (n <=? 102) then Some (n - 87)
  else if (65 <=? n) && (n <=? 70) then Some (n - 55)
  else None.

Definition snoc (acc : string) (c : Ascii.ascii) : string :=
  acc +:+ String c EmptyString.

(** The character an escape letter stands for. *)
Definition unescape (c : Ascii.ascii) : option Ascii.ascii :=
  let n := Ascii.nat_of_ascii c in
  if n =? 34 then Some DQUOTE
  else if n =? 92 then Some BACKSLASH
  else if n =? 47 then Some c
  else if n =? 110 then Some (Ascii.ascii_of_nat 10)
  else if n =? 114 then Some (Ascii.ascii_of_nat 13)
  else if n =? 116 then Some (Ascii.ascii_of_nat 9)
  else if n =? 98 then Some (Ascii.ascii_of_nat 8)
  else if n =? 102 then Some (Ascii.ascii_of_nat 12)
  else None.

Definition punctuation (c : Ascii.ascii) : option token :=
  let n := Ascii.nat_of_ascii c in
  if n =? 123 then Some TLBrace
  else if n =? 125 then Some TRBrace
  else if n =? 91 then Some TLBracket
  else if n =? 93 then Some TRBracket
  else if n =? 44 then Some TComma
  else if n =? 58 then Some TColon
  else None.

Definition whitespace (c : Ascii.ascii) : bool :=
  let n := Ascii.nat_of_ascii c in
  (n =? 32) || (n =? 9) || (n =? 10) || (n =? 13).

(** The scanner reads the text once, left to right. Numbers and the
    literals [null], [true], [false] are not values the store holds and are
    refused, as are code points from 256 on. *)
Fixpoint scan (st : scan_state) (input : string) : option (list token) :=
  match input with
  | EmptyString =>
      match st with
      | Outside => Some []
      | _ => None
      end
  | String c rest =>
      match st with
      | Outside =>
          if whitespace c then scan Outside rest
          else if Ascii.nat_of_ascii c =? 34 then scan (InString EmptyString) rest
          else match punctuation c with
               | Some t => cons t <$> scan Outside rest
               | None => None
               end
      | InString acc =>
          let n := Ascii.nat_of_ascii c in
          if n =? 34 then cons (TString acc) <$> scan Outside rest
          else if n =? 92 then scan (Escaped acc) rest
          else if n <? 32 then None
          else scan (InString (snoc acc c)) rest
      | Escaped acc =>
          if Ascii.nat_of_ascii c =? 117 then scan (Unicode acc []) rest
          else match unescape c with
               | Some d => scan (InString (snoc acc d)) rest
               | None => None
               end
      | Unicode acc digits =>
          match hex_value c with
          | None => None
          | Some d =>
              match digits with
              | [d1; d2; d3] =>
                  let n := 4096 * d1 + 256 * d2 + 16 * d3 + d in
                  if n <? 256
                  then scan (InString (snoc acc (Ascii.ascii_of_nat n))) rest
                  else None
              | _ => scan (Unicode acc (digits ++ [d])) rest
              end
          end
      end
  end.

(** *** Decoder: values from tokens *)

(** [parse_value] reads one value; [parse_items] and [parse_members] read
    the rest of an array or object after its first element. [fuel] bounds
    the nesting and the number of elements read. *)
Fixpoint parse_value (fuel : nat) (ts : list token)
  : option (value * list token) :=
  match fuel with
  | O => None
  | S fuel =>
      match ts with
      | TString s :: ts => Some (JString s, ts)
      | TLBracket :: TRBracket :: ts => Some (JArray [], ts)
      | TLBracket :: ts =>
          '(v, ts) ← parse_value fuel ts;
          '(vs, ts) ← parse_items fuel ts;
          Some (JArray (v :: vs), ts)
      | TLBrace :: TRBrace :: ts => Some (JObject [], ts)
      | TLBrace :: TString k :: TColon :: ts =>
          '(v, ts) ← parse_value fuel ts;
          '(kvs, ts) ← parse_members fuel ts;
          Some (JObject ((k, v) :: kvs), ts)
      | _ => None
      end
  end
with parse_items (fuel : nat) (ts : list token)
  : option (list value * list token) :=
  match fuel with
  | O => None
  | S fuel =>
      match ts with
      | TRBracket :: ts => Some ([], ts)
      | TComma :: ts =>
          '(v, ts) ← parse_value fuel ts;
          '(vs, ts) ← parse_items fuel ts;
          Some (v :: vs, ts)
      | _ => None
      end
  end
with parse_members (fuel : nat) (ts : list token)
  : option (list (string * value) * list token) :=
  match fuel with
  | O => None
  | S fuel =>
      match ts with
      | TRBrace :: ts => Some ([], ts)
      | TComma :: TString k :: TColon :: ts =>
          '(v, ts) ← parse_value fuel ts;
          '(kvs, ts) ← parse_members fuel ts;
          Some ((k, v) :: kvs, ts)
      | _ => None
      end
  end.

(** [json.loads(text)]: one value and nothing after it. *)
Definition loads (text : string) : option value :=
  ts ← scan Outside text;
  '(v, rest) ← parse_value (S (length ts)) ts;
  if rest is [] then Some v else None.

End Json.

(** ** class UserContextDB *)
Module UserContextDB.

(** [self.users] is a [dict] from user id to profile; the order in which
    Python keeps the keys is not part of the model. *)
Record t : Type := mk {
  users : gmap string Profile.t;
  users_file : string;
}.

(** *** The profile dictionary as a JSON value, and back *)

Definition strings_to_json (items : list string) : Json.value :=
  Json.JArray (Json.JString <$> items).

Definition profile_to_json (p : Profile.t) : Json.value :=
  Json.JObject
    [("user_id", Json.JString (Profile.user_id p));
     ("name", Json.JString (Profile.name p));
     ("preferences", strings_to_json (Profile.preferences p));
     ("purchase_history", strings_to_json (Profile.purchase_history p))].

Definition users_to_json (users : gmap string Profile.t) : Json.value :=
  Json.JObject (prod_map id profile_to_json <$> map_to_list users).

(** The [dict] a JSON object decodes to: of two members with one key the
    later one stays. *)
Definition object_to_dict {A} (members : list (string * A)) : gmap string A :=
  list_to_map (reverse members).

Definition string_of_json (v : Json.value) : option string :=
  match v with
  | Json.JString s => Some s
  | _ => None
  end.

Definition strings_of_json (v : Json.value) : option (list string) :=
  match v with
  | Json.JArray items => mapM string_of_json items
  | _ => None
  end.

Definition profile_keys : list string :=
  ["user_id"; "name"; "preferences"; "purchase_history"].

(** A decoded object is a profile when it has the four keys, with a string
    or a list of strings under each, and no other key. Python keeps whatever
    [json.load] returns; other shapes are outside what [Profile.t] holds. *)
Definition profile_of_json (v : Json.value) : option Profile.t :=
  match v with
  | Json.JObject members =>
      let d := object_to_dict members in
      if bool_decide (Forall (λ kv, kv.1 ∈ profile_keys) members) then
        user_id ← d !! "user_id" ≫= string_of_json;
        name ← d !! "name" ≫= string_of_json;
        preferences ← d !! "preferences" ≫= strings_of_json;
        purchase_history ← d !! "purchase_history" ≫= strings_of_json;
        Some (Profile.mk user_id name preferences purchase_history)
      else None
  | _ => None
  end.

Definition users_of_json (v : Json.value) : option (gmap string Profile.t) :=
  match v with
  | Json.JObject members =>
      object_to_dict <$> mapM (λ kv, pair kv.1 <$> profile_of_json kv.2) members
  | _ => None
  end.

(** The text [json.dump(self.users, f, indent=2)] writes. *)
Definition json_dump (users : gmap string Profile.t) : string :=
  Json.dumps (users_to_json users).

(** [json.load(f)] on the text of the file; [None] when it raises. *)
Definition json_load (text : string) : option (gmap string Profile.t) :=
  Json.loads text ≫= users_of_json.

(** [str(e)] of the exception [json.load] raises; the position the library
    reports in it is left out. *)
Definition JSONDecodeError : Exception := "JSONDecodeError".

(** *** Methods *)

Definition save_to_file (self : t) : IO unit :=
  do r <- write_file (users_file self) (json_dump (users self));
  match r with
  | inr _ => ret tt
  | inl e =>
      print ("Warning: Could not save users to " +:+ users_file self
               +:+ ": " +:+ e)
  end.

Definition load_from_file (self : t) : IO t :=
  do found <- path_exists (users_file self);
  if (found : bool) then
    do r <- read_file (users_file self);
    match r with
    | inr text =>
        match json_load text with
        | Some loaded =>
            print ("✓ Loaded " +:+ pretty (size loaded) +:+ " user(s) from "
                     +:+ users_file self);;
            ret (mk loaded (users_file self))
        | None =>
            print ("Warning: Could not load users from " +:+ users_file self
                     +:+ ": " +:+ JSONDecodeError);;
            ret self
        end
    | inl e =>
        print ("Warning: Could not load users from " +:+ users_file self
                 +:+ ": " +:+ e);;
        ret self
    end
  else ret self.

Definition __init__ (users_file : string) : IO t :=
  load_from_file (mk ∅ users_file).

Definition create_or_update_user (self : t) (user_id : string)
    (name : option string) (preferences purchase_history : option (list string))
  : IO (Profile.t * t) :=
  let profile :=
    match users self !! user_id with
    | None =>
        Profile.mk user_id (or_str name ("User_" +:+ user_id))
          (or_list preferences []) (or_list purchase_history [])
    | Some p =>
        let p :=
          if truthy_str name
          then Profile.mk (Profile.user_id p) (default EmptyString name)
                 (Profile.preferences p) (Profile.purchase_history p)
          else p in
        let p :=
          if truthy_list preferences
          then Profile.mk (Profile.user_id p) (Profile.name p)
                 (default [] preferences) (Profile.purchase_history p)
          else p in
        if truthy_list purchase_history
        then Profile.mk (Profile.user_id p) (Profile.name p)
               (Profile.preferences p) (default [] purchase_history)
        else p
    end in
  let self := mk (<[user_id := profile]> (users self)) (users_file self) in
  save_to_file self;;
  ret (profile, self).

Definition get_user (self : t) (user_id : string) : option Profile.t :=
  users self !! user_id.

Definition delete_user (self : t) (user_id : string) : IO (bool * t) :=
  if bool_decide (is_Some (users self !! user_id)) then
    let self := mk (delete user_id (users self)) (users_file self) in
    save_to_file self;;
    ret (true, self)
  else ret (false, self).

Definition clear_all (self : t) : IO t :=
  let self := mk ∅ (users_file self) in
  save_to_file self;;
  ret self.

(** [list(self.users.values())], in the order of the model's dictionary:
    the order in which Python lists them is not part of the model. *)
Definition list_users (self : t) : list Profile.t :=
  (map_to_list (users self)).*2.

End UserContextDB.

(** ** class SimpleRAG *)
Module SimpleRAG.

Record t : Type := mk {
  model : string;
  documents : list Doc.t;
  conversation_history : list Message.t;
  client : option Client;
  user_db : UserContextDB.t;
}.

Definition set_documents (self : t) (docs : list Doc.t) : t :=
  mk (model self) docs (conversation_history self) (client self) (user_db self).

Definition set_conversation_history (self : t) (h : list Message.t) : t :=
  mk (model self) (documents self) h (client self) (user_db self).

Definition DEFAULT_MODEL : string := "groq-mixtral-v1".

(** [a or b] where both are optional strings. *)
Definition or_opt (a b : option string) : option string :=
  if truthy_str a then a else b.

Definition __init__ (model : option string) (users_file : string) : IO t :=
  do env_model <- getenv "GROQ_MODEL";
  let model := or_str (or_opt model env_model) DEFAULT_MODEL in
  do user_db <- UserContextDB.__init__ users_file;
  do api_key <- getenv "GROQ_API_KEY";
  do groq <- (λ w, (Groq w, w));
  match groq with
  | None =>
      print "Warning: 'groq' package not installed. Install it to enable Groq generation.";;
      ret (mk model [] [] None user_db)
  | Some new_client =>
      if negb (truthy_str api_key) then
        print "Warning: GROQ_API_KEY environment variable not set. Set it to enable generation.";;
        ret (mk model [] [] None user_db)
      else
        match new_client (default EmptyString api_key) with
        | inr c => ret (mk model [] [] (Some c) user_db)
        | inl e =>
            print ("Error initializing Groq client: " +:+ e);;
            ret (mk model [] [] None user_db)
        end
  end.

(** The list [lines] that [_format_user_context] builds. Every profile has
    the key [name], so the default of [user_profile.get('name', 'Unknown')]
    is not taken. *)
Definition _format_user_context_lines (user_profile : Profile.t) : list string :=
  let lines := ["Name: " +:+ Profile.name user_profile] in
  let lines :=
    if truthy_list (Some (Profile.preferences user_profile))
    then lines ++ ["Preferences: "
                     +:+ join ", " (Profile.preferences user_profile)]
    else lines in
  if truthy_list (Some (Profile.purchase_history user_profile))
  then lines ++ ["Recent interactions: "
                   +:+ join ", " (slice_last 3 (Profile.purchase_history user_profile))]
  else lines.

Definition _format_user_context (user_profile : Profile.t) : string :=
  join LF (_format_user_context_lines user_profile).

Definition NO_PDF_LOADED : string :=
  "No PDF loaded. Please upload a PDF first.".

Definition CLIENT_NOT_CONFIGURED : string :=
  "Groq client not configured." +:+ LF
  +:+ "Set the GROQ_API_KEY environment variable (or add it to your .env) and restart the app."
  +:+ LF
  +:+ "Example (PowerShell): $env:GROQ_API_KEY = 'your_key_here'".

Definition system_prompt : string :=
  "You are a helpful, personalized assistant. "
  +:+ "Answer questions based on the provided document context and user context. "
  +:+ "Tailor your response to the user's preferences and history when relevant. "
  +:+ "If the answer is not in the document, say 'The information is not available in the provided document.'".

(** The string [user_context_str] of [generate_response]. A profile found
    is a dict with four keys, hence truthy. *)
Definition user_context_str (self : t) (user_id : option string) : string :=
  if truthy_str user_id then
    let user_id := default EmptyString user_id in
    match UserContextDB.get_user (user_db self) user_id with
    | Some user_profile => _format_user_context user_profile
    | None => "User ID: " +:+ user_id +:+ " (no profile data available)"
    end
  else EmptyString.

(** The string [user_message] of [generate_response]. *)
Definition user_message (self : t) (query : string) (user_id : option string)
  : string :=
  let context := join (LF +:+ LF) (Doc.text <$> documents self) in
  let user_context_str := user_context_str self user_id in
  let user_message := "Document context:" +:+ LF +:+ context in
  let user_message :=
    if truthy_str (Some user_context_str)
    then user_message +:+ LF +:+ LF +:+ "User Context:" +:+ LF
           +:+ user_context_str
    else user_message in
  user_message +:+ LF +:+ LF +:+ "Question: " +:+ query.

(** The list [messages] of [generate_response]. *)
Definition messages (self : t) (query : string) (user_id : option string)
  : list Message.t :=
  [Message.mk "system" system_prompt;
   Message.mk "user" (user_message self query user_id)].

(** The answer read off a response object. *)
Definition answer_of (response : Response.t) : string :=
  match Response.first_choice_content response with
  | Some content => content
  | None => or_str (Response.text response) (Response.str response)
  end.

Definition generate_response (self : t) (query : string)
    (user_id : option string) : IO (string * t) :=
  match documents self with
  | [] => ret (NO_PDF_LOADED, self)
  | _ :: _ =>
      let self :=
        set_conversation_history self
          (conversation_history self ++ [Message.mk "user" query]) in
      let messages := messages self query user_id in
      match client self with
      | None => ret (CLIENT_NOT_CONFIGURED, self)
      | Some client =>
          do r <- chat_completions_create client
                    (Request.mk (model self) messages
                       (QArith_base.Qmake 7 10) 1000);
          match r with
          | inr response =>
              let answer := answer_of response in
              ret (answer,
                   set_conversation_history self
                     (conversation_history self
                        ++ [Message.mk "assistant" answer]))
          | inl e => ret ("Error generating response: " +:+ e, self)
          end
      end
  end.

Definition create_user (self : t) (user_id : string) (name : option string)
    (preferences purchase_history : option (list string))
  : IO (Profile.t * t) :=
  do '(profile, db) <- UserContextDB.create_or_update_user (user_db self)
                         user_id name preferences purchase_history;
  ret (profile,
       mk (model self) (documents self) (conversation_history self)
         (client self) db).

Definition get_user (self : t) (user_id : string) : option Profile.t :=
  UserContextDB.get_user (user_db self) user_id.

Definition list_documents (self : t) : list Doc.t := documents self.

(** The index at which the loop of [remove_document] stops, counting from
    [i]: that of the first document called [pdf_name]. *)
Fixpoint first_named (pdf_name : string) (docs : list Doc.t) (i : nat)
  : option nat :=
  match docs with
  | [] => None
  | doc :: rest =>
      if String.eqb (Doc.name doc) pdf_name then Some i
      else first_named pdf_name rest (S i)
  end.

Definition remove_document (self : t) (pdf_name : string) : IO (bool * t) :=
  match first_named pdf_name (documents self) 0 with
  | Some i =>
      print ("✓ Removed: " +:+ pdf_name);;
      ret (true, set_documents self (delete i (documents self)))
  | None =>
      print ("✗ Document not found: " +:+ pdf_name);;
      ret (false, self)
  end.

Definition clear_documents (self : t) : IO t :=
  print "All documents cleared.";;
  ret (mk (model self) [] [] (client self) (user_db self)).

Definition list_users (self : t) : list Profile.t :=
  UserContextDB.list_users (user_db self).

(** [os.path.basename(path)] of [posixpath]: what follows the last slash. *)
Fixpoint basename_from (name path : string) : string :=
  match path with
  | EmptyString => name
  | String c rest =>
      if Ascii.eqb c (Ascii.ascii_of_nat 47)
      then basename_from EmptyString rest
      else basename_from (name +:+ String c EmptyString) rest
  end.

Definition basename (path : string) : string :=
  basename_from EmptyString path.

(** A page of a PDF, by what [page.extract_text()] does: raise, or return
    [None] or the text. *)
Definition Page : Type := Exception + option string.

(** [PyPDF2.PdfReader], by what it makes of the bytes of a file: raise, or
    give the pages. *)
Definition PdfReader : Type := string → Exception + list Page.

(** The loop of [load_pdf] over the pages from number [page_num] on, with
    the [text] gathered so far. *)
Fixpoint extract_pages (pdf_name : string) (page_num : nat)
    (pages : list Page) (text : string) : Exception + string :=
  match pages with
  | [] => inr text
  | inl e :: _ => inl e
  | inr extracted :: pages =>
      let page_text := or_str extracted EmptyString in
      extract_pages pdf_name (S page_num) pages
        (text +:+ LF +:+ "--- " +:+ pdf_name +:+ " Page " +:+ pretty page_num
           +:+ " ---" +:+ LF +:+ page_text)
  end.

Definition load_pdf (PyPDF2 : PdfReader) (self : t) (pdf_path : string)
  : IO (string * t) :=
  let pdf_name := basename pdf_path in
  let failed (e : Exception) : IO (string * t) :=
    print ("Error loading PDF: " +:+ e);; ret (EmptyString, self) in
  do r <- read_file pdf_path;
  match r with
  | inr data =>
      match PyPDF2 data with
      | inr pages =>
          match extract_pages pdf_name 1 pages EmptyString with
          | inr text =>
              let doc_entry :=
                Doc.mk pdf_name text (length pages) (String.length text) in
              print ("✓ PDF loaded: " +:+ pdf_name +:+ " ("
                       +:+ pretty (length pages) +:+ " pages, "
                       +:+ pretty (String.length text) +:+ " characters)");;
              ret (text, set_documents self (documents self ++ [doc_entry]))
          | inl e => failed e
          end
      | inl e => failed e
      end
  | inl e => failed e
  end.

End SimpleRAG.

(** ** main.py: the console *)
Module Main.

(** *** The [str] methods the console uses, on code points below 256 *)

(** [c.isspace()] *)
Definition isspace (c : Ascii.ascii) : bool :=
  let n := Ascii.nat_of_ascii c in
  ((9 <=? n) && (n <=? 13)) || ((28 <=? n) && (n <=? 32))
  || (n =? 133) || (n =? 160).

(** [s.lstrip()] *)
Fixpoint lstrip (s : string) : string :=
  match s with
  | EmptyString => EmptyString
  | String c rest => if isspace c then lstrip rest else s
  end.

(** [s.rstrip()] *)
Fixpoint rstrip (s : string) : string :=
  match s with
  | EmptyString => EmptyString
  | String c rest =>
      match rstrip rest with
      | EmptyString => if isspace c then EmptyString else String c EmptyString
      | kept => String c kept
      end
  end.

(** [s.strip()] *)
Definition strip (s : string) : string := rstrip (lstrip s).

Definition lower_char (c : Ascii.ascii) : Ascii.ascii :=
  let n := Ascii.nat_of_ascii c in
  if ((65 <=? n) && (n <=? 90))
     || ((192 <=? n) && (n <=? 222) && negb (n =? 215))
  then Ascii.ascii_of_nat (n + 32)
  else c.

(** [s.lower()] *)
Fixpoint lower (s : string) : string :=
  match s with
  | EmptyString => EmptyString
  | String c rest => String (lower_char c) (lower rest)
  end.

(** [s.startswith(prefix)] *)
Definition startswith (s prefix : string) : bool := String.prefix prefix s.

(** [s[n:]] *)
Fixpoint slice_from (n : nat) (s : string) : string :=
  match n, s with
  | O, _ => s
  | S n, String _ rest => slice_from n rest
  | S _, EmptyString => EmptyString
  end.

(** [s.split(",")], with [piece] the part read since the last comma *)
Fixpoint split_from (piece s : string) : list string :=
  match s with
  | EmptyString => [piece]
  | String c rest =>
      if Ascii.eqb c (Ascii.ascii_of_nat 44) then piece :: split_from EmptyString rest
      else split_from (piece +:+ String c EmptyString) rest
  end.

Definition split_commas (s : string) : list string := split_from EmptyString s.

(** [[p.strip() for p in s.split(",") if p.strip()]] *)
Definition comma_separated (s : string) : list string :=
  filter (λ p, p ≠ EmptyString) (strip <$> split_commas s).

(** *** Standard input *)

(** [input(prompt)]: the prompt is written, as an entry of its own, and the
    next line of the standard input is read; [None] stands for the
    [EOFError] raised at its end. *)
Definition input (prompt : string) (stdin : list string)
  : IO (option string * list string) :=
  print prompt;;
  ret (match stdin with
       | [] => (None, [])
       | line :: stdin => (Some line, stdin)
       end).

Fixpoint print_all (lines : list string) : IO unit :=
  match lines with
  | [] => ret tt
  | line :: lines => print line;; print_all lines
  end.

(** *** The program *)

(** ["=" * 60] *)
Definition rule : string := String.concat EmptyString (replicate 60 "=").

Definition print_help : IO unit :=
  print_all
    [LF +:+ rule;
     "📄 Groq + PDF RAG with User Context - CLI Demo";
     rule;
     LF +:+ "Available commands:";
     "  load <path>           - Load a PDF file";
     "  create_user           - Create a new user interactively";
     "  list_users            - List all users";
     "  select_user <user_id> - Select a user for chat";
     "  list_docs             - List loaded PDFs";
     "  remove_doc <name>     - Remove a specific PDF";
     "  clear                 - Clear all loaded documents";
     "  help                  - Show this help message";
     "  exit                  - Exit the program";
     LF +:+ "Or just type a question to ask about the loaded PDFs." +:+ LF].

(** How a pass through the loop of [main] ends: with [continue] or at the
    end of the body, with [break], or with the [EOFError] of [input]. *)
Inductive control : Type := Continue | Break | EOFError.

(** The state a pass leaves: the object, the selected user and what is
    left of the standard input. *)
Definition pass : Type :=
  (control * SimpleRAG.t * option string * list string)%type.

(** The branch of the command [load <path>] *)
Definition load_command (PyPDF2 : SimpleRAG.PdfReader) (rag : SimpleRAG.t)
    (user_input : string) : IO SimpleRAG.t :=
  let pdf_path := strip (slice_from 5 user_input) in
  do found <- path_exists pdf_path;
  if (found : bool) then
    print "⏳ Loading PDF...";;
    do '(text, rag) <- SimpleRAG.load_pdf PyPDF2 rag pdf_path;
    let text_length := String.length text in
    print ("✓ PDF loaded (" +:+ pretty text_length +:+ " characters)");;
    ret rag
  else
    print ("❌ File not found: " +:+ pdf_path);;
    ret rag.

(** The branch of the command [list_docs] *)
Definition list_docs_command (rag : SimpleRAG.t) : IO unit :=
  let docs := SimpleRAG.list_documents rag in
  match docs with
  | _ :: _ =>
      print (LF +:+ "📚 Loaded Documents:");;
      print_all
        (imap (λ i doc, "  " +:+ pretty (S i) +:+ ". " +:+ Doc.name doc +:+ " (" +:+ pretty (Doc.pages doc) +:+ " pages, " +:+ pretty (Doc.char_count doc) +:+ " chars)") docs)
  | [] => print "ℹ️ No documents loaded. Use 'load <path>' to add PDFs."
  end.

(** The branch of the command [remove_doc <name>] *)
Definition remove_doc_command (rag : SimpleRAG.t) (user_input : string)
  : IO SimpleRAG.t :=
  let doc_name := strip (slice_from 11 user_input) in
  do '(removed, rag) <- SimpleRAG.remove_document rag doc_name;
  if (removed : bool) then print ("✓ Removed: " +:+ doc_name);; ret rag
  else ret rag.

(** The branch of the command [list_users] *)
Definition list_users_command (rag : SimpleRAG.t) : IO unit :=
  let users := SimpleRAG.list_users rag in
  match users with
  | _ :: _ =>
      print (LF +:+ "👤 Available Users:");;
      print_all
        (mjoin
           ((λ user,
               ("  • " +:+ Profile.name user +:+ " (" +:+ Profile.user_id user +:+ ")")
               :: (if truthy_list (Some (Profile.preferences user))
                   then ["    Preferences: " +:+ join ", " (Profile.preferences user)]
                   else [])) <$> users))
  | [] => print "ℹ️ No users found. Run 'create_user' to add users."
  end.

(** The branch of the command [create_user] *)
Definition create_user_command (rag : SimpleRAG.t)
    (current_user_id : option string) (stdin : list string) : IO pass :=
  do '(line, stdin) <- input ("  User ID: ") stdin;
  match line with
  | None => ret (EOFError, rag, current_user_id, stdin)
  | Some line =>
      let user_id := strip line in
      if negb (truthy_str (Some user_id)) then
        print "❌ User ID is required";;
        ret (Continue, rag, current_user_id, stdin)
      else
        do '(line, stdin) <- input ("  User Name: ") stdin;
        match line with
        | None => ret (EOFError, rag, current_user_id, stdin)
        | Some line =>
            let user_name := strip line in
            if negb (truthy_str (Some user_name)) then
              print "❌ User Name is required";;
              ret (Continue, rag, current_user_id, stdin)
            else
              do '(line, stdin) <- input ("  Preferences (comma-separated): ") stdin;
              match line with
              | None => ret (EOFError, rag, current_user_id, stdin)
              | Some line =>
                  let prefs_input := strip line in
                  let prefs := comma_separated prefs_input in
                  do '(line, stdin) <- input ("  Purchase/Interaction History (comma-separated): ") stdin;
                  match line with
                  | None => ret (EOFError, rag, current_user_id, stdin)
                  | Some line =>
                      let history_input := strip line in
                      let history := comma_separated history_input in
                      do '(_, rag) <- SimpleRAG.create_user rag user_id
                                        (Some user_name) (Some prefs)
                                        (Some history);
                      print ("✓ User '" +:+ user_id +:+ "' created and saved to users.json");;
                      let current_user_id := Some user_id in
                      print ("✓ Switched to user '" +:+ user_id +:+ "'");;
                      ret (Continue, rag, current_user_id, stdin)
                  end
              end
        end
  end.

(** The branch of the command [select_user <user_id>] *)
Definition select_user_command (rag : SimpleRAG.t)
    (current_user_id : option string) (user_input : string)
  : IO (option string) :=
  let user_id := strip (slice_from 12 user_input) in
  match SimpleRAG.get_user rag user_id with
  | Some user =>
      print ("✓ Switched to user: " +:+ Profile.name user +:+ " (" +:+ Profile.user_id user +:+ ")");;
      ret (Some user_id)
  | None =>
      print ("❌ User not found: " +:+ user_id);;
      ret current_user_id
  end.

(** The end of the body: the input is a question. *)
Definition question (rag : SimpleRAG.t) (current_user_id : option string)
    (user_input : string) : IO SimpleRAG.t :=
  if negb (truthy_str current_user_id) then
    print "⚠️ No user selected. Use 'select_user <user_id>' or 'create_user' first.";;
    ret rag
  else
    print (LF +:+ "⏳ Generating personalized response..." +:+ LF);;
    do '(response, rag) <- SimpleRAG.generate_response rag user_input
                             current_user_id;
    print ("Response:" +:+ LF +:+ response +:+ LF);;
    ret rag.

(** One pass through the body of the loop of [main]. *)
Definition main_pass (PyPDF2 : SimpleRAG.PdfReader) (rag : SimpleRAG.t)
    (current_user_id : option string) (stdin : list string) : IO pass :=
  let prompt_str :=
    if truthy_str current_user_id
    then LF +:+ "[user (" +:+ default EmptyString current_user_id +:+ ")]> "
    else LF +:+ "> " in
  do '(line, stdin) <- input prompt_str stdin;
  match line with
  | None => ret (EOFError, rag, current_user_id, stdin)
  | Some line =>
      let user_input := strip line in
      if negb (truthy_str (Some user_input)) then
        ret (Continue, rag, current_user_id, stdin)
      else if String.eqb (lower user_input) "exit" then
        print "Goodbye!";;
        ret (Break, rag, current_user_id, stdin)
      else if String.eqb (lower user_input) "help" then
        print_help;;
        ret (Continue, rag, current_user_id, stdin)
      else if startswith (lower user_input) "load " then
        do rag <- load_command PyPDF2 rag user_input;
        ret (Continue, rag, current_user_id, stdin)
      else if String.eqb (lower user_input) "list_docs" then
        list_docs_command rag;;
        ret (Continue, rag, current_user_id, stdin)
      else if startswith (lower user_input) "remove_doc " then
        do rag <- remove_doc_command rag user_input;
        ret (Continue, rag, current_user_id, stdin)
      else if String.eqb (lower user_input) "clear" then
        do rag <- SimpleRAG.clear_documents rag;
        print "✓ All documents cleared";;
        ret (Continue, rag, current_user_id, stdin)
      else if String.eqb (lower user_input) "list_users" then
        list_users_command rag;;
        ret (Continue, rag, current_user_id, stdin)
      else if String.eqb (lower user_input) "create_user" then
        create_user_command rag current_user_id stdin
      else if startswith (lower user_input) "select_user " then
        do current_user_id <- select_user_command rag current_user_id
                                user_input;
        ret (Continue, rag, current_user_id, stdin)
      else
        do rag <- question rag current_user_id user_input;
        ret (Continue, rag, current_user_id, stdin)
  end.



End Main.

(** ** Definitions used to state the properties *)

(** A world with no files, an empty environment and no [groq] package. *)
Definition empty_world : World := mkWorld ∅ ∅ ∅ ∅ None [] [].

(** A client whose every request raises. *)
Definition failing_client (e : Exception) : Client := λ _, inl e.

(** The request [generate_response] sends for a question. *)
Definition request_for (self : SimpleRAG.t) (query : string)
    (user_id : option string) : Request.t :=
  Request.mk (SimpleRAG.model self) (SimpleRAG.messages self query user_id)
    (QArith_base.Qmake 7 10) 1000.

(** The user turn [generate_response] records for a question. *)
Definition with_user_turn (self : SimpleRAG.t) (query : string) : SimpleRAG.t :=
  SimpleRAG.set_conversation_history self
    (SimpleRAG.conversation_history self ++ [Message.mk "user" query]).

(** The user payload of the scenario: one document with text [T], the
    profile of Ann, and the question. *)
Definition scenario_payload : string :=
  "Document context:" +:+ LF +:+ "T" +:+ LF +:+ LF
  +:+ "User Context:" +:+ LF
  +:+ "Name: Ann" +:+ LF
  +:+ "Preferences: x, y" +:+ LF
  +:+ "Recent interactions: b, c, d" +:+ LF +:+ LF
  +:+ "Question: What is x?".

(** A profile with its history removed. *)
Definition without_history (p : Profile.t) : Profile.t :=
  Profile.mk (Profile.user_id p) (Profile.name p) (Profile.preferences p) [].

(** One call of the upsert: the id and the three optional fields. *)
Record upsert : Type := mkUpsert {
  up_id : string;
  up_name : option string;
  up_preferences : option (list string);
  up_purchase_history : option (list string);
}.

(** A sequence of [create_or_update_user] calls on one store. *)
Fixpoint create_or_update_users (db : UserContextDB.t) (calls : list upsert)
  : IO UserContextDB.t :=
  match calls with
  | [] => ret db
  | c :: calls =>
      do '(_, db) <- UserContextDB.create_or_update_user db (up_id c)
                       (up_name c) (up_preferences c) (up_purchase_history c);
      create_or_update_users db calls
  end.

(** The value a call supplies for a field: none when the argument is absent
    or empty. *)
Definition supplied_str (a : option string) : option string :=
  match a with
  | Some s => if decide (s = EmptyString) then None else Some s
  | None => None
  end.

Definition supplied_list (a : option (list string)) : option (list string) :=
  match a with
  | Some l => if decide (l = []) then None else Some l
  | None => None
  end.

(** The last value supplied in a sequence of calls, if any. *)
Definition last_supplied {A} (values : list (option A)) : option A :=
  last (omap id values).

(** The profile an upsert starts from: the stored one, or for a new id the
    defaults (a placeholder name derived from the id, empty lists). *)
Definition initial_profile (db : UserContextDB.t) (user_id : string)
  : Profile.t :=
  default (Profile.mk user_id ("User_" +:+ user_id) [] [])
    (UserContextDB.users db !! user_id).

(** The profile one upsert stores, from the one it starts from. *)
Definition upserted (init : Profile.t) (name : option string)
    (preferences purchase_history : option (list string)) : Profile.t :=
  Profile.mk (Profile.user_id init)
    (default (Profile.name init) (supplied_str name))
    (default (Profile.preferences init) (supplied_list preferences))
    (default (Profile.purchase_history init) (supplied_list purchase_history)).

(** The fields of [p] are those of [init] with the last supplied value of
    each field, if any, in its place. *)
Definition merged (init p : Profile.t) (calls : list upsert) : Prop :=
  Profile.user_id p = Profile.user_id init
  ∧ Profile.name p
    = default (Profile.name init)
        (last_supplied (supplied_str ∘ up_name <$> calls))
  ∧ Profile.preferences p
    = default (Profile.preferences init)
        (last_supplied (supplied_list ∘ up_preferences <$> calls))
  ∧ Profile.purchase_history p
    = default (Profile.purchase_history init)
        (last_supplied (supplied_list ∘ up_purchase_history <$> calls)).

(** The tokens of a value, of the rest of an array after its first item,
    and of the rest of an object after its first member. *)
Fixpoint tokens (v : Json.value) : list Json.token :=
  match v with
  | Json.JString s => [Json.TString s]
  | Json.JArray [] => [Json.TLBracket; Json.TRBracket]
  | Json.JArray (v :: vs) =>
      Json.TLBracket :: tokens v
        ++ (fix rest vs :=
              match vs with
              | [] => [Json.TRBracket]
              | v :: vs => Json.TComma :: tokens v ++ rest vs
              end) vs
  | Json.JObject [] => [Json.TLBrace; Json.TRBrace]
  | Json.JObject (kv :: kvs) =>
      Json.TLBrace :: Json.TString kv.1 :: Json.TColon :: tokens kv.2
        ++ (fix rest kvs :=
              match kvs with
              | [] => [Json.TRBrace]
              | kv :: kvs =>
                  Json.TComma :: Json.TString kv.1 :: Json.TColon
                    :: tokens kv.2 ++ rest kvs
              end) kvs
  end.

Fixpoint items_tokens (vs : list Json.value) : list Json.token :=
  match vs with
  | [] => [Json.TRBracket]
  | v :: vs => Json.TComma :: tokens v ++ items_tokens vs
  end.

Fixpoint members_tokens (kvs : list (string * Json.value))
  : list Json.token :=
  match kvs with
  | [] => [Json.TRBrace]
  | kv :: kvs =>
      Json.TComma :: Json.TString kv.1 :: Json.TColon
        :: tokens kv.2 ++ members_tokens kvs
  end.

(** A string between double quotes, as it stands in a JSON text. *)
Definition quoted (s : string) : string :=
  String Json.DQUOTE (s +:+ String Json.DQUOTE EmptyString).

(** Sample values: a document of text [T], the profile of Ann, a store
    holding it, and a [SimpleRAG] with the document loaded and no client. *)
Definition sample_doc : Doc.t := Doc.mk "menu.pdf" "T" 1 1.

Definition sample_profile : Profile.t :=
  Profile.mk "u1" "Ann" ["x"; "y"] ["a"; "b"; "c"; "d"].

Definition sample_db : UserContextDB.t :=
  UserContextDB.mk {["u1" := sample_profile]} "users.json".

Definition sample_rag : SimpleRAG.t :=
  SimpleRAG.mk SimpleRAG.DEFAULT_MODEL [sample_doc] [] None
    (UserContextDB.mk ∅ "users.json").

Definition sample_calls : list upsert :=
  [mkUpsert "u1" (Some "Ann") None (Some ["a"]);
   mkUpsert "u2" (Some "Bob") None None;
   mkUpsert "u1" (Some EmptyString) (Some ["x"; "y"]) (Some [])].

(** The world after [data] was written to the file at [path]. *)
Definition with_file (path data : string) (w : World) : World :=
  mkWorld (<[path := data]> (files w)) (write_errors w) (read_errors w)
    (environ w) (Groq w) (stdout w) (outbound w).

(** The world after [lines] were printed. *)
Definition with_printed (lines : list string) (w : World) : World :=
  mkWorld (files w) (write_errors w) (read_errors w) (environ w) (Groq w)
    (stdout w ++ lines) (outbound w).

(** The warning [save_to_file] prints when the write raises [e]. *)
Definition save_warning (db : UserContextDB.t) (e : Exception) : string :=
  "Warning: Could not save users to " +:+ UserContextDB.users_file db
    +:+ ": " +:+ e.

(** The world [save_to_file] leaves. *)
Definition saved (db : UserContextDB.t) (w : World) : World :=
  match write_errors w !! UserContextDB.users_file db with
  | None =>
      with_file (UserContextDB.users_file db)
        (UserContextDB.json_dump (UserContextDB.users db)) w
  | Some e => with_printed [save_warning db e] w
  end.

(** Every profile is stored under its own [user_id]. *)
Definition keyed_by_id (users : gmap string Profile.t) : Prop :=
  map_Forall (λ k p, Profile.user_id p = k) users.

(** A call of a method that changes a [UserContextDB]. *)
Inductive db_call : Type :=
| CreateOrUpdateUser (c : upsert)
| DeleteUser (user_id : string)
| ClearAll.

Definition run_db_call (db : UserContextDB.t) (c : db_call)
  : IO UserContextDB.t :=
  match c with
  | CreateOrUpdateUser c =>
      do '(_, db) <- UserContextDB.create_or_update_user db (up_id c)
                       (up_name c) (up_preferences c) (up_purchase_history c);
      ret db
  | DeleteUser user_id =>
      do '(_, db) <- UserContextDB.delete_user db user_id;
      ret db
  | ClearAll => UserContextDB.clear_all db
  end.

Fixpoint run_db_calls (db : UserContextDB.t) (calls : list db_call)
  : IO UserContextDB.t :=
  match calls with
  | [] => ret db
  | c :: calls => do db <- run_db_call db c; run_db_calls db calls
  end.

(** What [load_pdf] adds to the text for page number [page_num]. *)
Definition page_block (pdf_name : string) (page_num : nat)
    (extracted : option string) : string :=
  LF +:+ "--- " +:+ pdf_name +:+ " Page " +:+ pretty page_num +:+ " ---"
    +:+ LF +:+ or_str extracted EmptyString.

(** The blocks of the pages numbered from [page_num] on, one after the
    other. *)
Fixpoint pages_text (pdf_name : string) (page_num : nat)
    (extracted : list (option string)) : string :=
  match extracted with
  | [] => EmptyString
  | e :: extracted =>
      page_block pdf_name page_num e
        +:+ pages_text pdf_name (S page_num) extracted
  end.

(** The file at [pdf_path] can be read, the reader accepts it, and every
    page gives its text or [None]: [extracted] is what the pages give. *)
Definition readable_pdf (PyPDF2 : SimpleRAG.PdfReader) (pdf_path : string)
    (w : World) (extracted : list (option string)) : Prop :=
  ∃ data,
    files w !! pdf_path = Some data
    ∧ read_errors w !! pdf_path = None
    ∧ PyPDF2 data = inr (inr <$> extracted).

(** The entry [load_pdf] appends for such a file. *)
Definition loaded_entry (pdf_path : string) (extracted : list (option string))
  : Doc.t :=
  let text := pages_text (SimpleRAG.basename pdf_path) 1 extracted in
  Doc.mk (SimpleRAG.basename pdf_path) text (length extracted)
    (String.length text).

(** The file at [pdf_path] is missing or cannot be read, or the reader
    raises on it, or one of its pages raises. *)
Definition unreadable_pdf (PyPDF2 : SimpleRAG.PdfReader) (pdf_path : string)
    (w : World) : Prop :=
  files w !! pdf_path = None
  ∨ is_Some (read_errors w !! pdf_path)
  ∨ ∃ data,
      files w !! pdf_path = Some data
      ∧ match PyPDF2 data with
        | inl _ => True
        | inr pages => Exists (λ page, ∃ e, page = inl e) pages
        end.

(** The client [SimpleRAG.__init__] ends up with in a world: one only when
    the [groq] package is there, the API key is set and not empty, and the
    constructor returns. *)
Definition configured_client (w : World) : option Client :=
  match Groq w, environ w !! "GROQ_API_KEY" with
  | Some new_client, Some api_key =>
      if decide (api_key = EmptyString) then None
      else match new_client api_key with
           | inr c => Some c
           | inl _ => None
           end
  | _, _ => None
  end.

(** A call of a public method of [SimpleRAG]. *)
Inductive call : Type :=
| LoadPdf (pdf_path : string)
| GenerateResponse (query : string) (user_id : option string)
| CreateUser (user_id : string) (name : option string)
    (preferences purchase_history : option (list string))
| RemoveDocument (pdf_name : string)
| ClearDocuments.

Definition run_call (PyPDF2 : SimpleRAG.PdfReader) (self : SimpleRAG.t)
    (c : call) : IO SimpleRAG.t :=
  match c with
  | LoadPdf pdf_path =>
      do '(_, self) <- SimpleRAG.load_pdf PyPDF2 self pdf_path; ret self
  | GenerateResponse query user_id =>
      do '(_, self) <- SimpleRAG.generate_response self query user_id; ret self
  | CreateUser user_id name preferences purchase_history =>
      do '(_, self) <- SimpleRAG.create_user self user_id name preferences
                         purchase_history;
      ret self
  | RemoveDocument pdf_name =>
      do '(_, self) <- SimpleRAG.remove_document self pdf_name; ret self
  | ClearDocuments => SimpleRAG.clear_documents self
  end.

(** A session: calls made one after the other on the same object. *)
Fixpoint run_calls (PyPDF2 : SimpleRAG.PdfReader) (self : SimpleRAG.t)
    (calls : list call) : IO SimpleRAG.t :=
  match calls with
  | [] => ret self
  | c :: calls => do self <- run_call PyPDF2 self c; run_calls PyPDF2 self calls
  end.

(** A conversation history made of exchanges: a user turn, followed or not
    by the assistant turn that answers it. *)
Inductive exchanges : list Message.t → Prop :=
| exchanges_nil : exchanges []
| exchanges_asked h query :
    exchanges h → exchanges (h ++ [Message.mk "user" query])
| exchanges_answered h query answer :
    exchanges h →
    exchanges (h ++ [Message.mk "user" query; Message.mk "assistant" answer]).

(** A request as [generate_response] makes them for an object: its model,
    the fixed parameters, and two messages, the system prompt and one user
    message. *)
Definition request_of (self : SimpleRAG.t) (req : Request.t) : Prop :=
  Request.model req = SimpleRAG.model self
  ∧ Request.temperature req = QArith_base.Qmake 7 10
  ∧ Request.max_tokens req = 1000
  ∧ ∃ payload,
      Request.messages req
      = [Message.mk "system" SimpleRAG.system_prompt;
         Message.mk "user" payload].

(** The number of questions asked in a session. *)
Fixpoint questions (calls : list call) : nat :=
  match calls with
  | [] => 0
  | GenerateResponse _ _ :: calls => S (questions calls)
  | _ :: calls => questions calls
  end.

(** Every document records the length of its text. *)
Definition counted (docs : list Doc.t) : Prop :=
  Forall (λ d, Doc.char_count d = String.length (Doc.text d)) docs.

(** A reader that accepts one content, with two pages of which the second
    has no text, and raises on any other. *)
Definition sample_reader : SimpleRAG.PdfReader :=
  λ data,
    if decide (data = "%PDF-1.4") then inr [inr (Some "Hello"); inr None]
    else inl "EOF marker not found".

(** A world with a PDF the reader accepts and a file it does not. *)
Definition sample_pdf_world : World :=
  mkWorld {["docs/menu.pdf" := "%PDF-1.4"; "notes.txt" := "plain text"]}
    ∅ ∅ ∅ None [] [].

(** A world whose [users.json] cannot be written. *)
Definition read_only_world : World :=
  mkWorld ∅ {["users.json" := "[Errno 13] Permission denied: 'users.json'"]}
    ∅ ∅ None [] [].


(** A session: a load, a question, a new user, a question, a removal. *)
Definition sample_session : list call :=
  [LoadPdf "docs/menu.pdf";
   GenerateResponse "What is x?" None;
   CreateUser "u1" (Some "Ann") (Some ["x"; "y"]) None;
   GenerateResponse "And y?" (Some "u1");
   RemoveDocument "menu.pdf"].

(** A string without a comma. *)
Fixpoint comma_free (s : string) : bool :=
  match s with
  | EmptyString => true
  | String c rest =>
      negb (Ascii.eqb c (Ascii.ascii_of_nat 44)) && comma_free rest
  end.

(** A tag as the console reads them from a comma-separated line: not
    empty, without a comma, without white space at either end. *)
Definition tag (p : string) : Prop :=
  p ≠ EmptyString ∧ Main.strip p = p ∧ comma_free p = true.

(** A step that keeps the model and the client of the object and sends
    nothing. *)
Definition quiet (rag rag' : SimpleRAG.t) (w w' : World) : Prop :=
  SimpleRAG.model rag' = SimpleRAG.model rag
  ∧ SimpleRAG.client rag' = SimpleRAG.client rag
  ∧ outbound w' = outbound w.

(** The prompt of the console for the selected user. *)
Definition prompt_for (current_user_id : option string) : string :=
  if truthy_str current_user_id
  then LF +:+ "[user (" +:+ default EmptyString current_user_id +:+ ")]> "
  else LF +:+ "> ".

(** What a pass may do, in the shape shared by its branches. *)
Definition pass_effect (rag : SimpleRAG.t) (current_user_id : option string)
    (stdin : list string) (w : World) (r : Main.pass * World) : Prop :=
  SimpleRAG.model r.1.1.1.2 = SimpleRAG.model rag
  ∧ SimpleRAG.client r.1.1.1.2 = SimpleRAG.client rag
  ∧ (∃ sent,
       outbound r.2 = outbound w ++ sent
       ∧ length sent ≤ 1
       ∧ (truthy_str current_user_id = false ∨ SimpleRAG.client rag = None →
          sent = []))
  ∧ match r.1.1.1.1 with
    | Main.Continue => ∃ line read, stdin = line :: read ++ r.1.2
    | Main.Break =>
        ∃ line,
          stdin = line :: r.1.2 ∧ Main.lower (Main.strip line) = "exit"
          ∧ r.1.1.1.2 = rag ∧ r.1.1.2 = current_user_id
    | Main.EOFError => r.1.1.1.2 = rag
    end.

(** The sample object with the profile of Ann in its store. *)
Definition sample_rag_with_user : SimpleRAG.t :=
  SimpleRAG.mk SimpleRAG.DEFAULT_MODEL [sample_doc] [] None sample_db.

(** Model resolution as the specification words it: the explicit argument
    when given and not empty, otherwise the environment value when set and
    not empty, otherwise the built-in default. *)
Definition resolve_model_spec (explicit env : option string) : string :=
  match explicit with
  | Some m =>
      if decide (m = EmptyString) then
        match env with
        | Some e => if decide (e = EmptyString) then SimpleRAG.DEFAULT_MODEL else e
        | None => SimpleRAG.DEFAULT_MODEL
        end
      else m
  | None =>
      match env with
      | Some e => if decide (e = EmptyString) then SimpleRAG.DEFAULT_MODEL else e
      | None => SimpleRAG.DEFAULT_MODEL
      end
  end.

(** ** Properties of the document collection *)

Section Documents.
Implicit Types (self : SimpleRAG.t) (docs before after : list Doc.t).


Lemma first_named_some pdf_name before doc after i :
  Forall (λ d, Doc.name d ≠ pdf_name) before →
  Doc.name doc = pdf_name →
  SimpleRAG.first_named pdf_name (before ++ doc :: after) i
  = Some (i + length before).
Proof.
  intros Hall Hdoc. revert i.
  induction Hall as [|d before Hd _ IH]; intros i; simpl.
  - rewrite Hdoc, String.eqb_refl. f_equal. lia.
  - destruct (String.eqb_spec (Doc.name d) pdf_name); [done|].
    rewrite IH. f_equal. lia.
Qed.

Lemma delete_middle before doc after :
  delete (length before) (before ++ doc :: after) = before ++ after.
Proof. induction before as [|d before IH]; simpl; [done|by rewrite IH]. Qed.



(** C6. After [clear_documents] the document collection is empty and so is
    the conversation history, whatever they held before. *)
Theorem clear_documents_clears_both self w :
  SimpleRAG.documents (SimpleRAG.clear_documents self w).1 = []
  ∧ SimpleRAG.conversation_history (SimpleRAG.clear_documents self w).1 = [].
Proof. done. Qed.

End Documents.

(** ** Properties of [generate_response] *)

Section GenerateResponse.
Implicit Types (self : SimpleRAG.t) (query : string) (user_id : option string).

(** [generate_response] with at least one document loaded, by cases on the
    client and on the outcome of the call. *)
Lemma generate_response_loaded self query user_id w :
  SimpleRAG.documents self ≠ [] →
  SimpleRAG.generate_response self query user_id w =
  match SimpleRAG.client self with
  | None => (SimpleRAG.CLIENT_NOT_CONFIGURED, with_user_turn self query, w)
  | Some c =>
      let req := request_for self query user_id in
      let w' := (chat_completions_create c req w).2 in
      match c req with
      | inr response =>
          (SimpleRAG.answer_of response,
           SimpleRAG.set_conversation_history self
             (SimpleRAG.conversation_history self
                ++ [Message.mk "user" query]
                ++ [Message.mk "assistant" (SimpleRAG.answer_of response)]),
           w')
      | inl e => ("Error generating response: " +:+ e,
                  with_user_turn self query, w')
      end
  end.
Proof.
  intros Hdocs. unfold SimpleRAG.generate_response.
  destruct self as [m docs h [c|] db]; simpl in *;
    destruct docs as [|d docs]; try done.
  unfold bind, chat_completions_create, request_for. simpl.
  destruct (c _) as [e|response]; simpl; [done|].
  unfold ret, SimpleRAG.set_conversation_history. simpl.
  by rewrite <-(assoc_L (++)).
Qed.

(** C3. With no document loaded, [generate_response] returns the fixed
    no-documents message for every question and every user id; the object
    and the world are as before, so no request has been sent. *)
Theorem generate_response_no_documents self query user_id w :
  SimpleRAG.documents self = [] →
  SimpleRAG.generate_response self query user_id w
  = (SimpleRAG.NO_PDF_LOADED, self, w)
  ∧ outbound (SimpleRAG.generate_response self query user_id w).2 = outbound w.
Proof.
  intros Hdocs. unfold SimpleRAG.generate_response. by rewrite Hdocs.
Qed.

(** C7. With a document loaded and no client configured,
    [generate_response] returns the fixed configuration guidance and sends
    no request. *)
Theorem generate_response_unconfigured self query user_id w :
  SimpleRAG.documents self ≠ [] →
  SimpleRAG.client self = None →
  (SimpleRAG.generate_response self query user_id w).1.1
  = SimpleRAG.CLIENT_NOT_CONFIGURED
  ∧ outbound (SimpleRAG.generate_response self query user_id w).2 = outbound w.
Proof.
  intros Hdocs Hclient.
  by rewrite (generate_response_loaded _ _ _ _ Hdocs), Hclient.
Qed.

(** C10. With a document loaded, the user turn is appended to the
    conversation history whatever happens next. When no client is configured
    the guidance is returned, and when the call raises the error text is
    returned; in both cases the history is the old one followed by the user
    turn alone, with no assistant turn. Only a call that returns adds the
    assistant turn after it. *)
Theorem generate_response_history self query user_id w :
  SimpleRAG.documents self ≠ [] →
  let result := SimpleRAG.generate_response self query user_id w in
  let history := SimpleRAG.conversation_history self in
  let user_turn := Message.mk "user" query in
  match SimpleRAG.client self with
  | None =>
      result.1.1 = SimpleRAG.CLIENT_NOT_CONFIGURED
      ∧ SimpleRAG.conversation_history result.1.2 = history ++ [user_turn]
  | Some c =>
      match c (request_for self query user_id) with
      | inl e =>
          result.1.1 = "Error generating response: " +:+ e
          ∧ SimpleRAG.conversation_history result.1.2 = history ++ [user_turn]
      | inr response =>
          result.1.1 = SimpleRAG.answer_of response
          ∧ SimpleRAG.conversation_history result.1.2
            = history ++ [user_turn; Message.mk "assistant" result.1.1]
      end
  end.
Proof.
  intros Hdocs. simpl.
  rewrite (generate_response_loaded _ _ _ _ Hdocs).
  destruct (SimpleRAG.client self) as [c|]; [|done]. simpl.
  by destruct (c (request_for self query user_id)).
Qed.

End GenerateResponse.

(** ** Model resolution *)

Section ModelResolution.

Lemma or_chain_resolves explicit env :
  or_str (SimpleRAG.or_opt explicit env) SimpleRAG.DEFAULT_MODEL
  = resolve_model_spec explicit env.
Proof.
  unfold SimpleRAG.or_opt, or_str, resolve_model_spec, truthy_str.
  destruct explicit as [m|], env as [e|]; simpl;
    repeat match goal with
      | |- context [String.eqb ?s EmptyString] =>
          destruct (String.eqb_spec s EmptyString); subst; simpl
      end;
    repeat case_decide; done.
Qed.

Lemma init_model explicit users_file w :
  SimpleRAG.model (SimpleRAG.__init__ explicit users_file w).1
  = or_str (SimpleRAG.or_opt explicit (environ w !! "GROQ_MODEL"))
      SimpleRAG.DEFAULT_MODEL.
Proof.
  unfold SimpleRAG.__init__, bind, getenv. simpl.
  destruct (UserContextDB.__init__ users_file w) as [db w1].
  destruct (Groq w1) as [new_client|]; [|done].
  destruct (negb _); [done|].
  by destruct (new_client _).
Qed.

(** C9. The model a freshly constructed [SimpleRAG] holds, and puts in the
    requests it sends, is the explicit argument when that is given and not
    empty, otherwise the value of [GROQ_MODEL] when that is set and not
    empty, otherwise the built-in default. *)
Theorem model_resolution_precedence explicit users_file w docs query user_id :
  let rag := (SimpleRAG.__init__ explicit users_file w).1 in
  let resolved := resolve_model_spec explicit (environ w !! "GROQ_MODEL") in
  SimpleRAG.model rag = resolved
  ∧ Request.model (request_for (SimpleRAG.set_documents rag docs) query user_id)
    = resolved.
Proof.
  simpl. unfold request_for. simpl.
  by rewrite init_model, or_chain_resolves.
Qed.

End ModelResolution.

(** ** Strings and slices *)

Section Strings.

Lemma append_cons x (a b : string) : String x a +:+ b = String x (a +:+ b).
Proof. done. Qed.

Lemma append_assoc (a b c : string) : (a +:+ b) +:+ c = a +:+ (b +:+ c).
Proof.
  induction a as [|x a IH]; [done|]. by rewrite !append_cons, IH.
Qed.

Lemma append_nil_r (a : string) : a +:+ EmptyString = a.
Proof.
  induction a as [|x a IH]; [done|]. by rewrite append_cons, IH.
Qed.

Lemma join_cons sep x y (items : list string) :
  join sep (x :: y :: items) = x +:+ sep +:+ join sep (y :: items).
Proof. done. Qed.

Lemma join_snoc sep (items : list string) x :
  items ≠ [] → join sep (items ++ [x]) = join sep items +:+ sep +:+ x.
Proof.
  induction items as [|y items IH]; [done|]. intros _.
  destruct items as [|z items]; [done|].
  change ((y :: z :: items) ++ [x]) with (y :: ((z :: items) ++ [x])).
  change ((z :: items) ++ [x]) with (z :: (items ++ [x])) at 1.
  rewrite join_cons.
  change (z :: (items ++ [x])) with ((z :: items) ++ [x]).
  rewrite IH by done.
  by rewrite (join_cons sep y z items), !append_assoc.
Qed.

Lemma slice_last_app {A} (older recent : list A) :
  slice_last (length recent) (older ++ recent) = recent.
Proof.
  unfold slice_last. rewrite length_app.
  replace (length older + length recent - length recent) with (length older)
    by lia.
  by rewrite drop_app_length.
Qed.

(** A list of more than three items is a non-empty front followed by its
    last three items. *)
Lemma last_three {A} (items : list A) :
  3 < length items →
  ∃ older a b c, items = older ++ [a; b; c] ∧ older ≠ [].
Proof.
  intros Hlen.
  pose proof (take_drop (length items - 3) items) as Hsplit.
  assert (length (drop (length items - 3) items) = 3) as Hdrop
    by (rewrite length_drop; lia).
  assert (length (take (length items - 3) items) ≠ 0) as Htake
    by (rewrite length_take; lia).
  destruct (drop (length items - 3) items) as [|a [|b [|c [|? ?]]]];
    try done.
  exists (take (length items - 3) items), a, b, c. split; [done|].
  by destruct (take (length items - 3) items).
Qed.

End Strings.

(** ** The JSON text of a value reads back as the value *)

Section JsonRoundTrip.
Import Json.

(** Induction over values, with the hypothesis for every item of an array
    and every member of an object. *)
Lemma value_ind' (P : value → Prop) :
  (∀ s, P (JString s)) →
  (∀ items, Forall P items → P (JArray items)) →
  (∀ members, Forall (λ kv, P kv.2) members → P (JObject members)) →
  ∀ v, P v.
Proof.
  intros Hs Ha Ho.
  fix IH 1. intros [s|items|members].
  - apply Hs.
  - apply Ha. induction items as [|v items IHitems]; constructor; auto.
  - apply Ho. induction members as [|[k v] members IHm]; constructor; auto.
Qed.

Lemma tokens_array v vs :
  tokens (JArray (v :: vs)) = TLBracket :: tokens v ++ items_tokens vs.
Proof.
  reflexivity.
Qed.

Lemma tokens_object kv kvs :
  tokens (JObject (kv :: kvs))
  = TLBrace :: TString kv.1 :: TColon :: tokens kv.2 ++ members_tokens kvs.
Proof.
  reflexivity.
Qed.

(** The text written for a store with one profile, as Python lays it out. *)
Example json_dump_one_profile :
  UserContextDB.json_dump {["u1" := Profile.mk "u1" "Ann" ["x"] []]}
  = join LF
      ["{";
       "  " +:+ quoted "u1" +:+ ": {";
       "    " +:+ quoted "user_id" +:+ ": " +:+ quoted "u1" +:+ ",";
       "    " +:+ quoted "name" +:+ ": " +:+ quoted "Ann" +:+ ",";
       "    " +:+ quoted "preferences" +:+ ": [";
       "      " +:+ quoted "x";
       "    ],";
       "    " +:+ quoted "purchase_history" +:+ ": []";
       "  }";
       "}"].
Proof. reflexivity. Qed.

(** Characters that JSON escapes come back as they were. *)
Example loads_escapes :
  Json.loads
    (Json.dumps
       (Json.JString
          ("a" +:+ LF +:+ String Json.DQUOTE (String Json.BACKSLASH
             (String (Ascii.ascii_of_nat 233) (String (Ascii.ascii_of_nat 127)
                "/"))))))
  = Some
      (Json.JString
         ("a" +:+ LF +:+ String Json.DQUOTE (String Json.BACKSLASH
            (String (Ascii.ascii_of_nat 233) (String (Ascii.ascii_of_nat 127)
               "/"))))).
Proof. reflexivity. Qed.

(** *** Scanning *)

Lemma scan_escape_char c acc rest :
  scan (InString acc) (escape_char c +:+ rest)
  = scan (InString (snoc acc c)) rest.
Proof.
  destruct c as [[] [] [] [] [] [] [] []]; reflexivity.
Qed.

Lemma fmap_app_app (a b : list token) (o : option (list token)) :
  (a ++.) <$> ((b ++.) <$> o) = ((a ++ b) ++.) <$> o.
Proof. destruct o as [ts|]; simpl; [|done]. by rewrite (assoc_L (++)). Qed.

Lemma scan_spaces n rest : scan Outside (spaces n +:+ rest) = scan Outside rest.
Proof.
  induction n as [|n IH]; [done|].
  change (spaces (S n) +:+ rest)
    with (String (Ascii.ascii_of_nat 32) (spaces n +:+ rest)).
  exact IH.
Qed.

Lemma scan_newline_indent level rest :
  scan Outside (newline_indent level +:+ rest) = scan Outside rest.
Proof.
  unfold newline_indent. rewrite append_assoc.
  change (LF +:+ ?x) with (String (Ascii.ascii_of_nat 10) x).
  simpl. apply scan_spaces.
Qed.

Lemma scan_escape s acc rest :
  scan (InString acc) (escape s +:+ String DQUOTE rest)
  = ([TString (acc +:+ s)] ++.) <$> scan Outside rest.
Proof.
  revert acc. induction s as [|c s IH]; intros acc.
  - by rewrite append_nil_r.
  - simpl. rewrite append_assoc, scan_escape_char, IH.
    unfold snoc. by rewrite append_assoc.
Qed.

Lemma scan_encode_string s rest :
  scan Outside (encode_string s +:+ rest)
  = ([TString s] ++.) <$> scan Outside rest.
Proof.
  unfold encode_string. rewrite append_cons, append_assoc.
  change (String DQUOTE EmptyString +:+ rest) with (String DQUOTE rest).
  change (scan Outside (String DQUOTE ?x)) with (scan (InString EmptyString) x).
  apply scan_escape.
Qed.

Lemma scan_lbracket rest :
  scan Outside ("[" +:+ rest) = ([TLBracket] ++.) <$> scan Outside rest.
Proof. done. Qed.

Lemma scan_rbracket rest :
  scan Outside ("]" +:+ rest) = ([TRBracket] ++.) <$> scan Outside rest.
Proof. done. Qed.

Lemma scan_lbrace rest :
  scan Outside ("{" +:+ rest) = ([TLBrace] ++.) <$> scan Outside rest.
Proof. done. Qed.

Lemma scan_rbrace rest :
  scan Outside ("}" +:+ rest) = ([TRBrace] ++.) <$> scan Outside rest.
Proof. done. Qed.

Lemma scan_comma rest :
  scan Outside ("," +:+ rest) = ([TComma] ++.) <$> scan Outside rest.
Proof. done. Qed.

Lemma scan_colon rest :
  scan Outside (": " +:+ rest) = ([TColon] ++.) <$> scan Outside rest.
Proof. done. Qed.

Lemma encode_array level v vs :
  encode level (JArray (v :: vs))
  = "[" +:+ newline_indent (S level)
      +:+ join ("," +:+ newline_indent (S level))
            (map (encode (S level)) (v :: vs))
      +:+ newline_indent level +:+ "]".
Proof. done. Qed.

Lemma encode_object level kv kvs :
  encode level (JObject (kv :: kvs))
  = "{" +:+ newline_indent (S level)
      +:+ join ("," +:+ newline_indent (S level))
            (map (λ kv, encode_string kv.1 +:+ ": " +:+ encode (S level) kv.2)
               (kv :: kvs))
      +:+ newline_indent level +:+ "}".
Proof. done. Qed.

(** The items of an array after the opening bracket and its line break,
    up to and including the closing bracket. *)
Lemma scan_items level vs :
  Forall (λ v, ∀ level rest,
            scan Outside (encode level v +:+ rest)
            = (tokens v ++.) <$> scan Outside rest) vs →
  ∀ v rest,
    (∀ level rest,
       scan Outside (encode level v +:+ rest)
       = (tokens v ++.) <$> scan Outside rest) →
    scan Outside
      (join ("," +:+ newline_indent (S level))
         (map (encode (S level)) (v :: vs))
       +:+ newline_indent level +:+ "]" +:+ rest)
    = ((tokens v ++ items_tokens vs) ++.) <$> scan Outside rest.
Proof.
  induction 1 as [|v' vs Hv' _ IH]; intros v rest Hv.
  - change (join _ (map _ [v])) with (encode (S level) v).
    rewrite Hv, scan_newline_indent, scan_rbracket.
    by rewrite fmap_app_app.
  - change (map (encode (S level)) (v :: v' :: vs))
      with (encode (S level) v :: encode (S level) v'
              :: map (encode (S level)) vs).
    rewrite join_cons, !append_assoc, Hv, scan_comma, scan_newline_indent.
    change (encode (S level) v' :: map (encode (S level)) vs)
      with (map (encode (S level)) (v' :: vs)).
    rewrite (IH v' rest Hv'), !fmap_app_app. simpl.
    by rewrite <-!(assoc_L (++)).
Qed.

Lemma scan_members level kvs :
  Forall (λ kv : string * value, ∀ level rest,
            scan Outside (encode level kv.2 +:+ rest)
            = (tokens kv.2 ++.) <$> scan Outside rest) kvs →
  ∀ (kv : string * value) rest,
    (∀ level rest,
       scan Outside (encode level kv.2 +:+ rest)
       = (tokens kv.2 ++.) <$> scan Outside rest) →
    scan Outside
      (join ("," +:+ newline_indent (S level))
         (map (λ kv, encode_string kv.1 +:+ ": " +:+ encode (S level) kv.2)
            (kv :: kvs))
       +:+ newline_indent level +:+ "}" +:+ rest)
    = ((TString kv.1 :: TColon :: tokens kv.2 ++ members_tokens kvs) ++.)
        <$> scan Outside rest.
Proof.
  induction 1 as [|kv' kvs Hkv' _ IH]; intros kv rest Hkv.
  - change (join _ (map _ [kv]))
      with (encode_string kv.1 +:+ ": " +:+ encode (S level) kv.2).
    rewrite !append_assoc, scan_encode_string, scan_colon, Hkv,
      scan_newline_indent, scan_rbrace.
    by rewrite !fmap_app_app.
  - set (f := λ kv : string * value,
               encode_string kv.1 +:+ ": " +:+ encode (S level) kv.2).
    change (map f (kv :: kv' :: kvs)) with (f kv :: f kv' :: map f kvs).
    rewrite join_cons. unfold f at 1.
    rewrite !append_assoc, scan_encode_string, scan_colon, Hkv, scan_comma,
      scan_newline_indent.
    change (f kv' :: map f kvs) with (map f (kv' :: kvs)).
    subst f. rewrite (IH kv' rest Hkv'), !fmap_app_app. simpl.
    by rewrite <-!(assoc_L (++)).
Qed.

Lemma scan_encode v :
  ∀ level rest,
    scan Outside (encode level v +:+ rest) = (tokens v ++.) <$> scan Outside rest.
Proof.
  induction v as [s|items IH|members IH] using value_ind'; intros level rest.
  - apply scan_encode_string.
  - destruct items as [|v vs].
    { change (encode level (JArray []) +:+ rest) with ("[" +:+ "]" +:+ rest).
      by rewrite scan_lbracket, scan_rbracket, fmap_app_app. }
    inversion IH as [|? ? Hv Hvs]; subst.
    rewrite encode_array, tokens_array, !append_assoc, scan_lbracket,
      scan_newline_indent, (scan_items level vs Hvs v rest Hv).
    by rewrite fmap_app_app.
  - destruct members as [|kv kvs].
    { change (encode level (JObject []) +:+ rest) with ("{" +:+ "}" +:+ rest).
      by rewrite scan_lbrace, scan_rbrace, fmap_app_app. }
    inversion IH as [|? ? Hkv Hkvs]; subst.
    rewrite encode_object, tokens_object, !append_assoc, scan_lbrace,
      scan_newline_indent, (scan_members level kvs Hkvs kv rest Hkv).
    by rewrite fmap_app_app.
Qed.

Lemma scan_dumps v : scan Outside (dumps v) = Some (tokens v).
Proof.
  unfold dumps. rewrite <-(append_nil_r (encode 0 v)), scan_encode. simpl.
  by rewrite (right_id_L [] (++)).
Qed.

(** *** Reading the tokens back *)

Lemma tokens_opens v :
  ∃ t ts, tokens v = t :: ts ∧ t ≠ TRBracket.
Proof.
  destruct v as [s|[|v vs]|[|kv kvs]]; simpl; eauto.
Qed.

Lemma parse_value_array fuel t ts :
  t ≠ TRBracket →
  parse_value (S fuel) (TLBracket :: t :: ts)
  = '(v, ts') ← parse_value fuel (t :: ts);
    '(vs, ts') ← parse_items fuel ts';
    Some (JArray (v :: vs), ts').
Proof. by destruct t. Qed.

Lemma parse_items_tokens vs :
  Forall (λ v, ∀ fuel rest,
            length (tokens v) ≤ fuel →
            parse_value fuel (tokens v ++ rest) = Some (v, rest)) vs →
  ∀ fuel rest,
    length (items_tokens vs) ≤ fuel →
    parse_items fuel (items_tokens vs ++ rest) = Some (vs, rest).
Proof.
  induction 1 as [|v vs Hv _ IH]; intros fuel rest Hfuel.
  - destruct fuel as [|fuel]; [simpl in Hfuel; lia|done].
  - simpl in Hfuel. rewrite length_app in Hfuel.
    destruct fuel as [|fuel]; [lia|].
    change (items_tokens (v :: vs) ++ rest)
      with (TComma :: (tokens v ++ items_tokens vs) ++ rest).
    rewrite <-(assoc_L (++)).
    change (parse_items (S fuel) (TComma :: ?ts))
      with ('(v, ts') ← parse_value fuel ts;
            '(vs, ts') ← parse_items fuel ts';
            Some (v :: vs, ts')).
    rewrite Hv by lia. simpl. by rewrite IH by lia.
Qed.

Lemma parse_members_tokens kvs :
  Forall (λ kv : string * value, ∀ fuel rest,
            length (tokens kv.2) ≤ fuel →
            parse_value fuel (tokens kv.2 ++ rest) = Some (kv.2, rest)) kvs →
  ∀ fuel rest,
    length (members_tokens kvs) ≤ fuel →
    parse_members fuel (members_tokens kvs ++ rest) = Some (kvs, rest).
Proof.
  induction 1 as [|[k v] kvs Hv _ IH]; intros fuel rest Hfuel.
  - destruct fuel as [|fuel]; [simpl in Hfuel; lia|done].
  - simpl in Hfuel, Hv. rewrite length_app in Hfuel.
    destruct fuel as [|fuel]; [lia|].
    change (members_tokens ((k, v) :: kvs) ++ rest)
      with (TComma :: TString k :: TColon
              :: (tokens v ++ members_tokens kvs) ++ rest).
    rewrite <-(assoc_L (++)).
    change (parse_members (S fuel) (TComma :: TString k :: TColon :: ?ts))
      with ('(v, ts') ← parse_value fuel ts;
            '(kvs, ts') ← parse_members fuel ts';
            Some ((k, v) :: kvs, ts')).
    rewrite Hv by lia. simpl. by rewrite IH by lia.
Qed.

Lemma parse_value_tokens v :
  ∀ fuel rest,
    length (tokens v) ≤ fuel →
    parse_value fuel (tokens v ++ rest) = Some (v, rest).
Proof.
  induction v as [s|items IH|members IH] using value_ind';
    intros fuel rest Hfuel.
  - destruct fuel as [|fuel]; [simpl in Hfuel; lia|done].
  - destruct items as [|v vs].
    { destruct fuel as [|fuel]; [simpl in Hfuel; lia|done]. }
    inversion IH as [|? ? Hv Hvs]; subst.
    rewrite tokens_array in *. simpl in Hfuel. rewrite length_app in Hfuel.
    destruct fuel as [|fuel]; [lia|].
    destruct (tokens_opens v) as (t & ts & Hts & Ht).
    change ((TLBracket :: tokens v ++ items_tokens vs) ++ rest)
      with (TLBracket :: (tokens v ++ items_tokens vs) ++ rest).
    rewrite <-(assoc_L (++)).
    pose proof (Hv fuel (items_tokens vs ++ rest)) as Hparse.
    rewrite Hts in Hparse |- *. simpl app.
    rewrite (parse_value_array fuel t _ Ht).
    simpl app in Hparse. rewrite Hparse by (rewrite Hts in Hfuel; simpl in *; lia).
    simpl. by rewrite (parse_items_tokens vs Hvs) by lia.
  - destruct members as [|[k v] kvs].
    { destruct fuel as [|fuel]; [simpl in Hfuel; lia|done]. }
    inversion IH as [|? ? Hv Hkvs]; subst. simpl in Hv.
    rewrite tokens_object in *. simpl in Hfuel. rewrite length_app in Hfuel.
    destruct fuel as [|fuel]; [lia|].
    change ((TLBrace :: TString (k, v).1 :: TColon
               :: tokens (k, v).2 ++ members_tokens kvs) ++ rest)
      with (TLBrace :: TString k :: TColon
              :: (tokens v ++ members_tokens kvs) ++ rest).
    rewrite <-(assoc_L (++)).
    change (parse_value (S fuel) (TLBrace :: TString k :: TColon :: ?ts))
      with ('(v, ts') ← parse_value fuel ts;
            '(kvs, ts') ← parse_members fuel ts';
            Some (JObject ((k, v) :: kvs), ts')).
    rewrite Hv by lia. simpl.
    by rewrite (parse_members_tokens kvs Hkvs) by lia.
Qed.

(** [loads] undoes [dumps]. *)
Lemma loads_dumps v : loads (dumps v) = Some v.
Proof.
  unfold loads. rewrite scan_dumps.
  pose proof (parse_value_tokens v (S (length (tokens v))) []) as Hparse.
  rewrite (right_id_L [] (++)) in Hparse.
  change (Some (tokens v) ≫= ?f) with (f (tokens v)). cbv beta.
  by rewrite Hparse by lia.
Qed.

End JsonRoundTrip.

(** ** The profile store: upsert *)

Section Upsert.
Implicit Types (db : UserContextDB.t) (calls : list upsert).

Lemma then_ret {A B} (m : IO A) (x : B) w : (bind m (λ _, ret x) w).1 = x.
Proof. unfold bind, ret. by destruct (m w). Qed.

Lemma or_str_supplied a d : or_str a d = default d (supplied_str a).
Proof.
  unfold or_str, supplied_str, truthy_str. destruct a as [s|]; [|done].
  destruct (String.eqb_spec s EmptyString); by case_decide.
Qed.

Lemma or_list_supplied a d : or_list a d = default d (supplied_list a).
Proof. by destruct a as [[|x l]|]. Qed.

(** One upsert, whatever the world: the stored profile is the initial one
    with each supplied field replaced. *)
Lemma create_or_update_user_result db user_id name preferences history w :
  (UserContextDB.create_or_update_user db user_id name preferences history w).1
  = (upserted (initial_profile db user_id) name preferences history,
     UserContextDB.mk
       (<[user_id := upserted (initial_profile db user_id) name preferences
                       history]> (UserContextDB.users db))
       (UserContextDB.users_file db)).
Proof.
  unfold UserContextDB.create_or_update_user, initial_profile, upserted.
  cbv zeta. rewrite then_ret.
  set (stored := UserContextDB.users db !! user_id).
  assert (∀ x y : Profile.t, x = y →
    (x, UserContextDB.mk (<[user_id := x]> (UserContextDB.users db))
          (UserContextDB.users_file db))
    = (y, UserContextDB.mk (<[user_id := y]> (UserContextDB.users db))
            (UserContextDB.users_file db))) as Hsame by (by intros ? ? ->).
  apply Hsame.
  destruct stored as [p0|]; simpl;
    rewrite ?or_str_supplied, ?or_list_supplied; [|done].
  unfold supplied_str, supplied_list, truthy_str.
  destruct name as [n|], preferences as [[|x l]|], history as [[|y h]|];
    simpl; try by destruct p0.
  all: destruct (String.eqb_spec n EmptyString); case_decide; simpl;
    try done; by destruct p0.
Qed.

Lemma last_supplied_cons {A} (d : A) v vs :
  default d (last_supplied (v :: vs)) = default (default d v) (last_supplied vs).
Proof.
  unfold last_supplied. destruct v as [a|]; [|done].
  change (omap id (Some a :: vs)) with (a :: omap id vs).
  rewrite last_cons. by destruct (last (omap id vs)).
Qed.

Lemma create_or_update_users_merged user_id calls db w :
  let mine := filter (λ c, up_id c = user_id) calls in
  mine ≠ [] ∨ is_Some (UserContextDB.users db !! user_id) →
  ∃ p,
    UserContextDB.get_user (create_or_update_users db calls w).1 user_id = Some p
    ∧ merged (initial_profile db user_id) p mine.
Proof.
  simpl. revert db w. induction calls as [|c calls IH]; intros db w Hsome.
  - destruct Hsome as [?|[p0 Hp0]]; [done|]. exists p0. split; [done|].
    unfold initial_profile. by rewrite Hp0.
  - simpl. unfold bind at 1.
    pose proof (create_or_update_user_result db (up_id c) (up_name c)
                  (up_preferences c) (up_purchase_history c) w) as Hstep.
    destruct (UserContextDB.create_or_update_user _ _ _ _ _ w)
      as [[p1 db1] w1]. simpl in Hstep. injection Hstep as Hp1 Hdb1.
    rewrite <-Hp1 in Hdb1.
    destruct (decide (up_id c = user_id)) as [Hid|Hid].
    + rewrite filter_cons_True by done.
      assert (UserContextDB.users db1 !! user_id = Some p1) as Hstored
        by (by rewrite Hdb1, Hid; simpl; rewrite lookup_insert_eq).
      destruct (IH db1 w1) as (p & Hget & Hu & Hn & Hp & Hh);
        [right; by rewrite Hstored|].
      exists p. split; [done|].
      unfold initial_profile in Hu, Hn, Hp, Hh.
      rewrite Hstored in Hu, Hn, Hp, Hh. simpl in Hu, Hn, Hp, Hh.
      rewrite Hid in Hp1.
      unfold merged. rewrite !fmap_cons, !last_supplied_cons.
      rewrite Hu, Hn, Hp, Hh, Hp1. done.
    + rewrite filter_cons_False by done.
      assert (UserContextDB.users db1 !! user_id
              = UserContextDB.users db !! user_id) as Hsame
        by (by rewrite Hdb1; simpl; rewrite lookup_insert_ne).
      destruct (IH db1 w1) as (p & Hget & Hmerged).
      { rewrite Hsame. destruct Hsome as [Hmine|?]; [left|by right].
        by rewrite filter_cons_False in Hmine. }
      exists p. split; [done|].
      unfold initial_profile in *. by rewrite Hsame in Hmerged.
Qed.

(** C1. After any sequence of upserts in which at least one is for
    [user_id], [get_user user_id] returns a profile whose name, preferences
    and purchase history are each the last non-empty value supplied for that
    field by the upserts for that id; a field for which those upserts
    supplied no non-empty value is as it was in the stored profile or, when
    the id was new, the default: the placeholder name made from the id, the
    empty list of preferences, the empty history. *)
Theorem upsert_merge_semantics db user_id calls w :
  let mine := filter (λ c, up_id c = user_id) calls in
  let init := initial_profile db user_id in
  mine ≠ [] →
  ∃ p,
    UserContextDB.get_user (create_or_update_users db calls w).1 user_id = Some p
    ∧ Profile.name p
      = default (Profile.name init)
          (last_supplied (supplied_str ∘ up_name <$> mine))
    ∧ Profile.preferences p
      = default (Profile.preferences init)
          (last_supplied (supplied_list ∘ up_preferences <$> mine))
    ∧ Profile.purchase_history p
      = default (Profile.purchase_history init)
          (last_supplied (supplied_list ∘ up_purchase_history <$> mine))
    ∧ (UserContextDB.users db !! user_id = None →
       init = Profile.mk user_id ("User_" +:+ user_id) [] []).
Proof.
  simpl. intros Hmine.
  destruct (create_or_update_users_merged user_id calls db w)
    as (p & Hget & _ & Hn & Hp & Hh); [by left|].
  exists p. repeat split; try done.
  intros Hnew. unfold initial_profile. by rewrite Hnew.
Qed.

End Upsert.

(** ** The profile store: persistence *)

Section Persistence.
Implicit Types (db : UserContextDB.t) (users : gmap string Profile.t).

Lemma strings_of_json_to_json items :
  UserContextDB.strings_of_json (UserContextDB.strings_to_json items)
  = Some items.
Proof.
  unfold UserContextDB.strings_of_json, UserContextDB.strings_to_json.
  by apply mapM_fmap_Some.
Qed.

Lemma profile_of_json_to_json p :
  UserContextDB.profile_of_json (UserContextDB.profile_to_json p) = Some p.
Proof.
  destruct p as [user_id name preferences history].
  unfold UserContextDB.profile_of_json, UserContextDB.profile_to_json.
  rewrite bool_decide_eq_true_2
    by (repeat constructor; unfold UserContextDB.profile_keys; set_solver).
  cbv zeta. unfold UserContextDB.object_to_dict. simpl Profile.user_id.
  simpl Profile.name. simpl Profile.preferences.
  simpl Profile.purchase_history.
  change (reverse ?l) with (rev_append l []). simpl rev_append.
  rewrite !list_to_map_cons.
  repeat (rewrite lookup_insert_eq || (rewrite lookup_insert_ne by done)).
  cbn -[UserContextDB.strings_of_json UserContextDB.strings_to_json].
  by rewrite !strings_of_json_to_json.
Qed.

Lemma users_of_json_to_json users :
  UserContextDB.users_of_json (UserContextDB.users_to_json users) = Some users.
Proof.
  unfold UserContextDB.users_of_json, UserContextDB.users_to_json.
  rewrite (mapM_fmap_Some _ (prod_map id UserContextDB.profile_to_json)).
  - simpl. f_equal. unfold UserContextDB.object_to_dict.
    rewrite <-(list_to_map_to_list users) at 2.
    symmetry. apply list_to_map_proper; [apply NoDup_fst_map_to_list|].
    symmetry. apply reverse_Permutation.
  - intros [k p]. unfold prod_map. cbn [fst snd id].
    by rewrite profile_of_json_to_json.
Qed.

(** What [json.load] reads from the text [json.dump] wrote is the
    dictionary that was written. *)
Lemma json_load_dump users :
  UserContextDB.json_load (UserContextDB.json_dump users) = Some users.
Proof.
  unfold UserContextDB.json_load, UserContextDB.json_dump.
  rewrite loads_dumps. apply users_of_json_to_json.
Qed.




End Persistence.

(** ** The profile store: further operations *)

Section StoreOperations.
Implicit Types (db : UserContextDB.t) (users : gmap string Profile.t).

Lemma save_to_file_saved db w :
  UserContextDB.save_to_file db w = ((), saved db w).
Proof.
  unfold UserContextDB.save_to_file, bind, write_file, saved.
  by destruct (write_errors w !! UserContextDB.users_file db).
Qed.

Lemma saved_files_writable db w :
  write_errors w !! UserContextDB.users_file db = None →
  files (saved db w) !! UserContextDB.users_file db
  = Some (UserContextDB.json_dump (UserContextDB.users db)).
Proof.
  intros Hwrite. unfold saved. rewrite Hwrite. simpl.
  by rewrite lookup_insert_eq.
Qed.

Lemma saved_read_errors db w : read_errors (saved db w) = read_errors w.
Proof. unfold saved. by destruct (write_errors w !! _). Qed.

Lemma saved_write_errors db w : write_errors (saved db w) = write_errors w.
Proof. unfold saved. by destruct (write_errors w !! _). Qed.

Lemma saved_outbound db w : outbound (saved db w) = outbound w.
Proof. unfold saved. by destruct (write_errors w !! _). Qed.

Lemma saved_environ db w : environ (saved db w) = environ w.
Proof. unfold saved. by destruct (write_errors w !! _). Qed.

Lemma saved_Groq db w : Groq (saved db w) = Groq w.
Proof. unfold saved. by destruct (write_errors w !! _). Qed.

(** One upsert, with the world it leaves. *)
Lemma create_or_update_user_run db user_id name preferences history w :
  let profile :=
    upserted (initial_profile db user_id) name preferences history in
  let db' :=
    UserContextDB.mk (<[user_id := profile]> (UserContextDB.users db))
      (UserContextDB.users_file db) in
  UserContextDB.create_or_update_user db user_id name preferences history w
  = (profile, db', saved db' w).
Proof.
  simpl.
  pose proof (create_or_update_user_result db user_id name preferences
                history w) as Hresult.
  unfold UserContextDB.create_or_update_user, bind in *.
  rewrite save_to_file_saved in *. unfold ret in *. simpl in *.
  injection Hresult as Hp Hdb. by rewrite Hp.
Qed.

Lemma delete_user_run db user_id w :
  UserContextDB.delete_user db user_id w
  = match UserContextDB.users db !! user_id with
    | Some _ =>
        let db' :=
          UserContextDB.mk (delete user_id (UserContextDB.users db))
            (UserContextDB.users_file db) in
        (true, db', saved db' w)
    | None => (false, db, w)
    end.
Proof.
  unfold UserContextDB.delete_user.
  destruct (UserContextDB.users db !! user_id) as [p|] eqn:Hp.
  - rewrite bool_decide_eq_true_2 by eauto.
    unfold bind. by rewrite save_to_file_saved.
  - rewrite bool_decide_eq_false_2; [done|]. by intros [? ?].
Qed.

Lemma clear_all_run db w :
  UserContextDB.clear_all db w
  = (UserContextDB.mk ∅ (UserContextDB.users_file db),
     saved (UserContextDB.mk ∅ (UserContextDB.users_file db)) w).
Proof.
  unfold UserContextDB.clear_all, bind. by rewrite save_to_file_saved.
Qed.

(** Constructing a store over a world. *)
Lemma init_run users_file w :
  UserContextDB.__init__ users_file w
  = match files w !! users_file with
    | None => (UserContextDB.mk ∅ users_file, w)
    | Some text =>
        match read_errors w !! users_file with
        | Some e =>
            (UserContextDB.mk ∅ users_file,
             with_printed
               ["Warning: Could not load users from " +:+ users_file +:+ ": "
                  +:+ e] w)
        | None =>
            match UserContextDB.json_load text with
            | Some loaded =>
                (UserContextDB.mk loaded users_file,
                 with_printed
                   ["✓ Loaded " +:+ pretty (size loaded) +:+ " user(s) from "
                      +:+ users_file] w)
            | None =>
                (UserContextDB.mk ∅ users_file,
                 with_printed
                   ["Warning: Could not load users from " +:+ users_file
                      +:+ ": " +:+ UserContextDB.JSONDecodeError] w)
            end
        end
    end.
Proof.
  unfold UserContextDB.__init__, UserContextDB.load_from_file, bind,
    path_exists, read_file.
  cbn [UserContextDB.users_file UserContextDB.users].
  destruct (files w !! users_file) as [text|] eqn:Hfile.
  - rewrite bool_decide_eq_true_2 by eauto.
    destruct (read_errors w !! users_file) as [e|]; [done|].
    rewrite Hfile.
    by destruct (UserContextDB.json_load text).
  - rewrite bool_decide_eq_false_2; [done|]. by intros [? ?].
Qed.

(** X1. [create_or_update_user] returns the profile it stores under
    [user_id], and the profile of every other id is as before. *)
Theorem create_or_update_user_frame db user_id name preferences history other w :
  other ≠ user_id →
  let r :=
    UserContextDB.create_or_update_user db user_id name preferences history w in
  UserContextDB.get_user r.1.2 user_id = Some r.1.1
  ∧ UserContextDB.get_user r.1.2 other = UserContextDB.get_user db other
  ∧ UserContextDB.users_file r.1.2 = UserContextDB.users_file db.
Proof.
  intros Hother. simpl. rewrite create_or_update_user_run. simpl.
  unfold UserContextDB.get_user. simpl.
  by rewrite lookup_insert_eq, lookup_insert_ne.
Qed.

(** X2. An upsert cannot empty a field: on an existing profile, a name,
    a list of preferences or a history that was not empty is not empty
    afterwards, whatever arguments are passed. *)
Theorem create_or_update_user_keeps_nonempty db user_id p0 name preferences
    history w :
  UserContextDB.users db !! user_id = Some p0 →
  let p :=
    (UserContextDB.create_or_update_user db user_id name preferences history
       w).1.1 in
  (Profile.name p0 ≠ EmptyString → Profile.name p ≠ EmptyString)
  ∧ (Profile.preferences p0 ≠ [] → Profile.preferences p ≠ [])
  ∧ (Profile.purchase_history p0 ≠ [] → Profile.purchase_history p ≠ []).
Proof.
  intros Hp0. simpl. rewrite create_or_update_user_run. simpl.
  unfold initial_profile. rewrite Hp0. simpl.
  unfold supplied_str, supplied_list.
  repeat split; intros Hne.
  - destruct name as [n|]; [|done]. by case_decide.
  - destruct preferences as [l|]; [|done]. by case_decide.
  - destruct history as [l|]; [|done]. by case_decide.
Qed.

Lemma upserted_twice init name preferences history :
  upserted (upserted init name preferences history) name preferences history
  = upserted init name preferences history.
Proof.
  unfold upserted. simpl.
  by destruct (supplied_str name), (supplied_list preferences),
    (supplied_list history).
Qed.

(** X3. An upsert repeated with the same arguments changes nothing more:
    the same profile is returned, the dictionary is the same and so are the
    files. *)
Theorem create_or_update_user_idempotent db user_id name preferences history w :
  let once :=
    UserContextDB.create_or_update_user db user_id name preferences history w in
  let twice :=
    UserContextDB.create_or_update_user once.1.2 user_id name preferences
      history once.2 in
  twice.1 = once.1 ∧ files twice.2 = files once.2.
Proof.
  simpl. rewrite !create_or_update_user_run. simpl.
  assert (initial_profile
            (UserContextDB.mk
               (<[user_id := upserted (initial_profile db user_id) name
                               preferences history]> (UserContextDB.users db))
               (UserContextDB.users_file db)) user_id
          = upserted (initial_profile db user_id) name preferences history)
    as Hinit by (unfold initial_profile at 1; simpl; by rewrite lookup_insert_eq).
  rewrite Hinit, upserted_twice, insert_insert_eq. split; [done|].
  unfold saved. simpl.
  destruct (write_errors w !! UserContextDB.users_file db) as [e|] eqn:Hw;
    simpl; rewrite Hw; simpl; [done|].
  by rewrite insert_insert_eq.
Qed.

(** X4. When the file cannot be written, [create_or_update_user] still
    changes the dictionary in memory; the files are untouched and one
    warning is printed. *)
Theorem create_or_update_user_unwritable db user_id name preferences history
    e w :
  write_errors w !! UserContextDB.users_file db = Some e →
  let r :=
    UserContextDB.create_or_update_user db user_id name preferences history w in
  UserContextDB.get_user r.1.2 user_id = Some r.1.1
  ∧ files r.2 = files w
  ∧ stdout r.2 = stdout w ++ [save_warning db e].
Proof.
  intros Hwrite. simpl. rewrite create_or_update_user_run. simpl.
  unfold UserContextDB.get_user, saved. simpl.
  by rewrite lookup_insert_eq, Hwrite.
Qed.

(** X5. [delete_user] on a stored id returns [True]; afterwards the id is
    not found, every other id is as before, and a writable file holds the
    remaining dictionary. On an id that is not stored it returns [False]
    and does nothing: the store is as before, the file is not rewritten and
    nothing is printed. *)
Theorem delete_user_removes db user_id w :
  let r := UserContextDB.delete_user db user_id w in
  (is_Some (UserContextDB.users db !! user_id) →
   r.1.1 = true
   ∧ UserContextDB.get_user r.1.2 user_id = None
   ∧ (∀ other, other ≠ user_id →
        UserContextDB.get_user r.1.2 other = UserContextDB.get_user db other)
   ∧ (write_errors w !! UserContextDB.users_file db = None →
      files r.2 !! UserContextDB.users_file db
      = Some (UserContextDB.json_dump
                (delete user_id (UserContextDB.users db)))))
  ∧ (UserContextDB.users db !! user_id = None → r = (false, db, w)).
Proof.
  simpl. rewrite delete_user_run. split.
  - intros [p Hp]. rewrite Hp. simpl.
    unfold UserContextDB.get_user. simpl. rewrite lookup_delete_eq.
    repeat split; [|].
    + intros other Hother. by rewrite lookup_delete_ne.
    + intros Hwrite.
      by rewrite (saved_files_writable
                    (UserContextDB.mk (delete user_id (UserContextDB.users db))
                       (UserContextDB.users_file db)) w Hwrite).
  - by intros ->.
Qed.

(** X6. Creating a user under a new id and then deleting that id gives back
    the dictionary as it was. *)
Theorem delete_undoes_create db user_id name preferences history w :
  UserContextDB.users db !! user_id = None →
  let created :=
    UserContextDB.create_or_update_user db user_id name preferences history w in
  let deleted := UserContextDB.delete_user created.1.2 user_id created.2 in
  deleted.1.1 = true
  ∧ UserContextDB.users deleted.1.2 = UserContextDB.users db.
Proof.
  intros Hnew. simpl. rewrite create_or_update_user_run. simpl.
  rewrite delete_user_run. simpl. rewrite lookup_insert_eq. simpl.
  split; [done|]. rewrite delete_insert_eq. by apply delete_id.
Qed.

Lemma json_dump_empty : UserContextDB.json_dump ∅ = "{}".
Proof.
  unfold UserContextDB.json_dump, UserContextDB.users_to_json.
  by rewrite map_to_list_empty.
Qed.

(** X7. [clear_all] empties the store and writes the empty object to a
    writable file, so that a store constructed later over that file, if it
    can read it, is empty too. *)
Theorem clear_all_empties db w w' :
  write_errors w !! UserContextDB.users_file db = None →
  let r := UserContextDB.clear_all db w in
  (files w' !! UserContextDB.users_file db
   = files r.2 !! UserContextDB.users_file db →
   read_errors w' !! UserContextDB.users_file db = None →
   UserContextDB.users
     (UserContextDB.__init__ (UserContextDB.users_file db) w').1 = ∅)
  ∧ UserContextDB.users r.1 = ∅
  ∧ files r.2 !! UserContextDB.users_file db = Some "{}".
Proof.
  intros Hwrite. simpl. rewrite clear_all_run. simpl.
  rewrite (saved_files_writable
             (UserContextDB.mk ∅ (UserContextDB.users_file db)) w Hwrite).
  simpl. rewrite json_dump_empty. split; [|done].
  intros Hkept Hread. rewrite init_run, Hkept. unfold Exception in *.
  rewrite Hread.
  by rewrite <-json_dump_empty, json_load_dump.
Qed.

(** X8. A store constructed over a path where no file exists is empty;
    nothing is printed and no file is created. *)
Theorem init_missing_file users_file w :
  files w !! users_file = None →
  UserContextDB.__init__ users_file w = (UserContextDB.mk ∅ users_file, w).
Proof. intros Hnone. by rewrite init_run, Hnone. Qed.


(** X10. [list_users] lists the stored profiles: as many as there are ids,
    and a profile is listed exactly when [get_user] returns it for some id. *)
Theorem list_users_lists_store db :
  length (UserContextDB.list_users db) = size (UserContextDB.users db)
  ∧ ∀ p, p ∈ UserContextDB.list_users db
         ↔ ∃ user_id, UserContextDB.get_user db user_id = Some p.
Proof.
  unfold UserContextDB.list_users, UserContextDB.get_user. split.
  - by rewrite length_fmap, length_map_to_list.
  - intros p. rewrite list_elem_of_fmap. split.
    + intros ([k p'] & -> & Hin). exists k. by apply elem_of_map_to_list.
    + intros [k Hk]. exists (k, p). split; [done|].
      by apply elem_of_map_to_list.
Qed.

Lemma keyed_by_id_insert users user_id p :
  keyed_by_id users → Profile.user_id p = user_id →
  keyed_by_id (<[user_id := p]> users).
Proof. intros Hkeyed Hp. by apply map_Forall_insert_2. Qed.

Lemma run_db_call_keyed db c w :
  keyed_by_id (UserContextDB.users db) →
  keyed_by_id (UserContextDB.users (run_db_call db c w).1).
Proof.
  intros Hkeyed. destruct c as [c|user_id|]; simpl; unfold bind.
  - rewrite create_or_update_user_run. simpl.
    apply keyed_by_id_insert; [done|]. unfold upserted, initial_profile. simpl.
    destruct (UserContextDB.users db !! up_id c) as [p0|] eqn:Hp0; [|done].
    simpl. by apply (Hkeyed _ _ Hp0).
  - rewrite delete_user_run.
    destruct (UserContextDB.users db !! user_id); simpl; [|done].
    by apply map_Forall_delete.
  - rewrite clear_all_run. simpl. apply map_Forall_empty.
Qed.

(** X11. Every profile is stored under its own [user_id]: if that holds of
    a store, as it does of an empty one, it holds after any sequence of
    upserts, deletions and clearings. *)
Theorem run_db_calls_keyed calls db w :
  keyed_by_id (UserContextDB.users db) →
  ∀ user_id p,
    UserContextDB.get_user (run_db_calls db calls w).1 user_id = Some p →
    Profile.user_id p = user_id.
Proof.
  revert db w. induction calls as [|c calls IH]; intros db w Hkeyed.
  - intros user_id p Hp. by apply (Hkeyed _ _ Hp).
  - simpl. unfold bind.
    pose proof (run_db_call_keyed db c w Hkeyed) as Hstep.
    destruct (run_db_call db c w) as [db1 w1]. by apply IH.
Qed.

End StoreOperations.

(** ** Loading documents *)

Section LoadPdf.
Context (PyPDF2 : SimpleRAG.PdfReader).
Implicit Types (self : SimpleRAG.t) (pdf_path : string).

Lemma extract_pages_all pdf_name extracted page_num text :
  SimpleRAG.extract_pages pdf_name page_num (inr <$> extracted) text
  = inr (text +:+ pages_text pdf_name page_num extracted).
Proof.
  revert page_num text.
  induction extracted as [|e extracted IH]; intros page_num text.
  - simpl. by rewrite append_nil_r.
  - simpl. rewrite IH. unfold page_block. by rewrite !append_assoc.
Qed.

Lemma extract_pages_raises pdf_name pages page_num text :
  Exists (λ page, ∃ e, page = inl e) pages →
  ∃ e, SimpleRAG.extract_pages pdf_name page_num pages text = inl e.
Proof.
  intros Hex. revert page_num text.
  induction Hex as [page pages [e ->]|page pages _ IH]; intros page_num text.
  - by exists e.
  - destruct page as [e|extracted]; [by exists e|]. apply IH.
Qed.

Lemma load_pdf_readable self pdf_path extracted w :
  readable_pdf PyPDF2 pdf_path w extracted →
  SimpleRAG.load_pdf PyPDF2 self pdf_path w
  = (Doc.text (loaded_entry pdf_path extracted),
     SimpleRAG.set_documents self
       (SimpleRAG.documents self ++ [loaded_entry pdf_path extracted]),
     with_printed
       ["✓ PDF loaded: " +:+ SimpleRAG.basename pdf_path +:+ " ("
          +:+ pretty (length extracted) +:+ " pages, "
          +:+ pretty (Doc.char_count (loaded_entry pdf_path extracted))
          +:+ " characters)"] w).
Proof.
  intros (data & Hfile & Hread & Hpages).
  unfold SimpleRAG.load_pdf, bind, read_file. unfold Exception in *.
  rewrite Hread, Hfile, Hpages, extract_pages_all.
  unfold loaded_entry. simpl. by rewrite length_fmap.
Qed.

Lemma load_pdf_unreadable self pdf_path w :
  unreadable_pdf PyPDF2 pdf_path w →
  ∃ e,
    SimpleRAG.load_pdf PyPDF2 self pdf_path w
    = (EmptyString, self, with_printed ["Error loading PDF: " +:+ e] w).
Proof.
  unfold SimpleRAG.load_pdf, bind, read_file.
  intros [Hnone|[[e He]|(data & Hfile & Hbad)]].
  - rewrite Hnone. destruct (read_errors w !! pdf_path);
      eexists; reflexivity.
  - rewrite He. eexists; reflexivity.
  - rewrite Hfile. destruct (read_errors w !! pdf_path);
      [eexists; reflexivity|].
    destruct (PyPDF2 data) as [e|pages]; [eexists; reflexivity|].
    destruct (extract_pages_raises (SimpleRAG.basename pdf_path) pages 1
                EmptyString Hbad) as [e ->].
    eexists; reflexivity.
Qed.

(** X12. When the file is missing or cannot be read, the reader raises on
    it, or one of its pages raises, [load_pdf] returns the empty string and
    leaves the object as it was: no document is added, not even for the
    pages read before the failure. One error line is printed. *)
Theorem load_pdf_failure self pdf_path w :
  unreadable_pdf PyPDF2 pdf_path w →
  let r := SimpleRAG.load_pdf PyPDF2 self pdf_path w in
  r.1 = (EmptyString, self)
  ∧ ∃ e, stdout r.2 = stdout w ++ ["Error loading PDF: " +:+ e].
Proof.
  intros Hbad. simpl.
  destruct (load_pdf_unreadable self pdf_path w Hbad) as [e ->].
  split; [done|]. by exists e.
Qed.

(** X13. When the file reads and every page gives its text or [None],
    [load_pdf] appends one entry after the documents already loaded, which
    stay as they are, duplicates by name included. The entry is named after
    the last component of the path; its text is the blocks of the pages in
    order, each headed by the marker with the page number counted from 1, a
    page without text giving an empty block; [pages] is the number of pages
    and [char_count] the length of the text. The text is also what is
    returned. *)
Theorem load_pdf_appends self pdf_path extracted w :
  readable_pdf PyPDF2 pdf_path w extracted →
  let r := SimpleRAG.load_pdf PyPDF2 self pdf_path w in
  let text := pages_text (SimpleRAG.basename pdf_path) 1 extracted in
  r.1.1 = text
  ∧ SimpleRAG.documents r.1.2
    = SimpleRAG.documents self
        ++ [Doc.mk (SimpleRAG.basename pdf_path) text (length extracted)
              (String.length text)]
  ∧ SimpleRAG.conversation_history r.1.2 = SimpleRAG.conversation_history self
  ∧ SimpleRAG.user_db r.1.2 = SimpleRAG.user_db self.
Proof.
  intros Hok. simpl. by rewrite (load_pdf_readable self pdf_path extracted w Hok).
Qed.

Lemma remove_document_found self pdf_name before doc after w :
  SimpleRAG.documents self = before ++ doc :: after →
  Forall (λ d, Doc.name d ≠ pdf_name) before →
  Doc.name doc = pdf_name →
  SimpleRAG.remove_document self pdf_name w
  = (true, SimpleRAG.set_documents self (before ++ after),
     with_printed ["✓ Removed: " +:+ pdf_name] w).
Proof.
  intros Hdocs Hbefore Hdoc. unfold SimpleRAG.remove_document.
  rewrite Hdocs, (first_named_some _ _ _ _ 0 Hbefore Hdoc). simpl.
  by rewrite delete_middle.
Qed.

(** X14. Loading a file and then removing the document named after it
    gives back the collection as it was, when no document of that name was
    loaded before. *)
Theorem load_then_remove_restores self pdf_path extracted w :
  readable_pdf PyPDF2 pdf_path w extracted →
  Forall (λ d, Doc.name d ≠ SimpleRAG.basename pdf_path)
    (SimpleRAG.documents self) →
  let loaded := SimpleRAG.load_pdf PyPDF2 self pdf_path w in
  let removed :=
    SimpleRAG.remove_document loaded.1.2 (SimpleRAG.basename pdf_path)
      loaded.2 in
  removed.1 = (true, self).
Proof.
  intros Hok Hfresh. simpl.
  rewrite (load_pdf_readable self pdf_path extracted w Hok). simpl.
  rewrite (remove_document_found _ (SimpleRAG.basename pdf_path)
             (SimpleRAG.documents self) (loaded_entry pdf_path extracted) []);
    try done.
  simpl. rewrite (right_id_L [] (++)). by destruct self.
Qed.

(** X15. Documents are removed by name, first match first: when a document
    of the same name is already loaded, loading the file again and removing
    by that name drops the older document and keeps the one just loaded, at
    the end of the collection. *)
Theorem load_duplicate_then_remove self pdf_path extracted before doc after w :
  readable_pdf PyPDF2 pdf_path w extracted →
  SimpleRAG.documents self = before ++ doc :: after →
  Forall (λ d, Doc.name d ≠ SimpleRAG.basename pdf_path) before →
  Doc.name doc = SimpleRAG.basename pdf_path →
  let loaded := SimpleRAG.load_pdf PyPDF2 self pdf_path w in
  let removed :=
    SimpleRAG.remove_document loaded.1.2 (SimpleRAG.basename pdf_path)
      loaded.2 in
  removed.1.1 = true
  ∧ SimpleRAG.documents removed.1.2
    = before ++ after ++ [loaded_entry pdf_path extracted].
Proof.
  intros Hok Hdocs Hbefore Hdoc. simpl.
  rewrite (load_pdf_readable self pdf_path extracted w Hok). simpl.
  rewrite (remove_document_found _ (SimpleRAG.basename pdf_path) before doc
             (after ++ [loaded_entry pdf_path extracted])); try done.
  simpl. by rewrite Hdocs, <-(assoc_L (++)).
Qed.

End LoadPdf.

(** ** Construction and restart *)

Section Construction.
Implicit Types (self : SimpleRAG.t) (w : World).

Lemma with_printed_app lines1 lines2 w :
  with_printed lines2 (with_printed lines1 w) = with_printed (lines1 ++ lines2) w.
Proof. unfold with_printed. simpl. by rewrite (assoc_L (++)). Qed.

Lemma with_printed_nil w : with_printed [] w = w.
Proof. destruct w. unfold with_printed. simpl. by rewrite (right_id_L [] (++)). Qed.

Lemma db_init_printed users_file w :
  ∃ lines,
    (UserContextDB.__init__ users_file w).2 = with_printed lines w.
Proof.
  rewrite init_run.
  destruct (files w !! users_file) as [text|].
  - destruct (read_errors w !! users_file) as [e|]; [by eexists|].
    destruct (UserContextDB.json_load text); by eexists.
  - exists []. by rewrite with_printed_nil.
Qed.

Lemma truthy_str_decide (key : string) :
  truthy_str (Some key) = if decide (key = EmptyString) then false else true.
Proof.
  unfold truthy_str. destruct (String.eqb_spec key EmptyString);
    by case_decide.
Qed.

(** Constructing a [SimpleRAG]: the object, and a world that differs from
    the one before by printed lines only. *)
Lemma rag_init_run model users_file w :
  ∃ lines,
    SimpleRAG.__init__ model users_file w
    = (SimpleRAG.mk
         (or_str (SimpleRAG.or_opt model (environ w !! "GROQ_MODEL"))
            SimpleRAG.DEFAULT_MODEL)
         [] [] (configured_client w) (UserContextDB.__init__ users_file w).1,
       with_printed lines w).
Proof.
  unfold SimpleRAG.__init__, bind, getenv, configured_client.
  destruct (db_init_printed users_file w) as [lines Hw1].
  destruct (UserContextDB.__init__ users_file w) as [db w1]. simpl in Hw1.
  subst w1. cbn [fst snd].
  change (environ (with_printed lines w)) with (environ w).
  change (Groq (with_printed lines w)) with (Groq w).
  assert (∀ (x : SimpleRAG.t) line,
    ∃ lines',
      (let '(_, w') := print line (with_printed lines w) in ret x w')
      = (x, with_printed lines' w)) as Hprinted.
  { intros x line. exists (lines ++ [line]).
    unfold print, ret, with_printed. simpl. by rewrite (assoc_L (++)). }
  destruct (Groq w) as [new_client|].
  - destruct (environ w !! "GROQ_API_KEY") as [key|].
    + rewrite truthy_str_decide. case_decide; [apply Hprinted|].
      change (default EmptyString (Some key)) with key. cbn [negb].
      destruct (new_client key) as [e|c]; [apply Hprinted|by eexists].
    + apply Hprinted.
  - apply Hprinted.
Qed.

(** X16. A [SimpleRAG] just constructed has no documents and an empty
    conversation history, so a question asked at once gets the no-documents
    message. It has a client only when the [groq] package is present, the
    API key is set and not empty, and the client constructor returns. Its
    users are those a [UserContextDB] loads from the file. Construction
    prints, and neither writes a file nor sends a request. *)
Theorem init_fresh model users_file w query user_id :
  let r := SimpleRAG.__init__ model users_file w in
  SimpleRAG.documents r.1 = []
  ∧ SimpleRAG.conversation_history r.1 = []
  ∧ (SimpleRAG.generate_response r.1 query user_id r.2).1.1
    = SimpleRAG.NO_PDF_LOADED
  ∧ SimpleRAG.client r.1 = configured_client w
  ∧ SimpleRAG.user_db r.1 = (UserContextDB.__init__ users_file w).1
  ∧ files r.2 = files w
  ∧ outbound r.2 = outbound w.
Proof.
  simpl. destruct (rag_init_run model users_file w) as [lines ->]. done.
Qed.

Lemma create_user_run self user_id name preferences history w :
  let db := SimpleRAG.user_db self in
  let profile :=
    upserted (initial_profile db user_id) name preferences history in
  let db' :=
    UserContextDB.mk (<[user_id := profile]> (UserContextDB.users db))
      (UserContextDB.users_file db) in
  SimpleRAG.create_user self user_id name preferences history w
  = (profile,
     SimpleRAG.mk (SimpleRAG.model self) (SimpleRAG.documents self)
       (SimpleRAG.conversation_history self) (SimpleRAG.client self) db',
     saved db' w).
Proof.
  simpl. unfold SimpleRAG.create_user, bind.
  by rewrite create_or_update_user_run.
Qed.


End Construction.

(** ** Sessions *)

Section Sessions.
Context (PyPDF2 : SimpleRAG.PdfReader).
Implicit Types (self : SimpleRAG.t) (w : World) (calls : list call).

Lemma request_for_request_of self query user_id :
  request_of self (request_for self query user_id).
Proof. unfold request_of, request_for, SimpleRAG.messages. simpl. eauto 6. Qed.

(** What one call of [generate_response] does to the object and to the
    world, in every case. *)
Lemma generate_response_effect self query user_id w :
  let r := SimpleRAG.generate_response self query user_id w in
  r.1.2 = SimpleRAG.set_conversation_history self
            (SimpleRAG.conversation_history r.1.2)
  ∧ (SimpleRAG.conversation_history r.1.2 = SimpleRAG.conversation_history self
     ∨ SimpleRAG.conversation_history r.1.2
       = SimpleRAG.conversation_history self ++ [Message.mk "user" query]
     ∨ ∃ answer,
         SimpleRAG.conversation_history r.1.2
         = SimpleRAG.conversation_history self
             ++ [Message.mk "user" query; Message.mk "assistant" answer])
  ∧ r.2 = mkWorld (files w) (write_errors w) (read_errors w) (environ w)
            (Groq w) (stdout w) (outbound r.2)
  ∧ (outbound r.2 = outbound w
     ∨ is_Some (SimpleRAG.client self)
       ∧ outbound r.2 = outbound w ++ [request_for self query user_id]).
Proof.
  simpl. destruct (SimpleRAG.documents self) as [|d docs] eqn:Hdocs.
  - unfold SimpleRAG.generate_response. rewrite Hdocs. simpl.
    destruct self, w. simpl in *. subst. by repeat split; try left.
  - rewrite generate_response_loaded by (by rewrite Hdocs).
    destruct (SimpleRAG.client self) as [c|] eqn:Hclient.
    + simpl. destruct (c _) as [e|response]; simpl;
        (split; [done|]); (split; [by eauto|]); (split; [done|]);
        right; by eauto.
    + simpl. destruct w. by repeat split; eauto.
Qed.

(** X18. [generate_response] changes nothing of the object but the
    conversation history, which keeps its turns and gains at most two; it
    neither prints nor touches a file, and it sends at most one request,
    made of the object's model, the fixed parameters and two messages. *)
Theorem generate_response_frame self query user_id w :
  let r := SimpleRAG.generate_response self query user_id w in
  SimpleRAG.model r.1.2 = SimpleRAG.model self
  ∧ SimpleRAG.documents r.1.2 = SimpleRAG.documents self
  ∧ SimpleRAG.client r.1.2 = SimpleRAG.client self
  ∧ SimpleRAG.user_db r.1.2 = SimpleRAG.user_db self
  ∧ files r.2 = files w
  ∧ stdout r.2 = stdout w
  ∧ (∃ added,
       SimpleRAG.conversation_history r.1.2
       = SimpleRAG.conversation_history self ++ added
       ∧ length added ≤ 2)
  ∧ (∃ sent,
       outbound r.2 = outbound w ++ sent
       ∧ length sent ≤ 1
       ∧ Forall (request_of self) sent).
Proof.
  simpl.
  destruct (generate_response_effect self query user_id w)
    as (Hself & Hhistory & Hworld & Hsent).
  rewrite Hself, Hworld. simpl. repeat split.
  - destruct Hhistory as [->|[->|[answer ->]]].
    + exists []. split; [by rewrite (right_id_L [] (++))|simpl; lia].
    + eexists. split; [done|]. simpl. lia.
    + eexists. split; [done|]. simpl. lia.
  - destruct Hsent as [->|[_ ->]].
    + exists []. split; [by rewrite (right_id_L [] (++))|].
      split; [simpl; lia|constructor].
    + eexists. split; [done|]. split; [simpl; lia|].
      repeat constructor; apply request_for_request_of.
Qed.

Lemma load_pdf_effect self pdf_path w :
  let r := SimpleRAG.load_pdf PyPDF2 self pdf_path w in
  (∃ lines, r.2 = with_printed lines w)
  ∧ (r.1 = (EmptyString, self)
     ∨ ∃ text pages,
         r.1 = (text,
                SimpleRAG.set_documents self
                  (SimpleRAG.documents self
                     ++ [Doc.mk (SimpleRAG.basename pdf_path) text pages
                           (String.length text)]))).
Proof.
  simpl. unfold SimpleRAG.load_pdf, bind, read_file.
  destruct (read_errors w !! pdf_path) as [e|]; [by eauto|].
  destruct (files w !! pdf_path) as [data|]; [|by eauto].
  destruct (PyPDF2 data) as [e|pages]; [by eauto|].
  destruct (SimpleRAG.extract_pages _ _ _ _) as [e|text]; [by eauto|].
  split; [by eexists|]. right. by eauto.
Qed.

Lemma remove_document_effect self pdf_name w :
  let r := SimpleRAG.remove_document self pdf_name w in
  (∃ lines, r.2 = with_printed lines w)
  ∧ (r.1 = (false, self)
     ∨ ∃ i, r.1 = (true, SimpleRAG.set_documents self
                           (delete i (SimpleRAG.documents self)))).
Proof.
  simpl. unfold SimpleRAG.remove_document.
  destruct (SimpleRAG.first_named _ _ _) as [i|]; simpl;
    (split; [by eexists|]); eauto.
Qed.

Lemma counted_delete i docs : counted docs → counted (delete i docs).
Proof.
  unfold counted. intros Hdocs. revert i.
  induction Hdocs as [|d docs Hd Hdocs IH]; intros [|i]; simpl;
    try done; by constructor.
Qed.

(** One call of any method: what it keeps and what it may send. *)
Lemma run_call_step c self w :
  let r := run_call PyPDF2 self c w in
  SimpleRAG.model r.1 = SimpleRAG.model self
  ∧ SimpleRAG.client r.1 = SimpleRAG.client self
  ∧ (exchanges (SimpleRAG.conversation_history self) →
     exchanges (SimpleRAG.conversation_history r.1))
  ∧ (counted (SimpleRAG.documents self) → counted (SimpleRAG.documents r.1))
  ∧ ∃ sent,
      outbound r.2 = outbound w ++ sent
      ∧ Forall (request_of self) sent
      ∧ length sent ≤ questions [c]
      ∧ (SimpleRAG.client self = None → sent = []).
Proof.
  simpl. destruct c as [pdf_path|query user_id|user_id name prefs hist
                        |pdf_name|]; simpl; unfold bind.
  - destruct (load_pdf_effect self pdf_path w) as ([lines Hw] & Hr).
    destruct (SimpleRAG.load_pdf PyPDF2 self pdf_path w) as [[text self'] w'].
    simpl in *. subst w'.
    assert (∃ sent : list Request.t,
              outbound w = outbound w ++ sent ∧ Forall (request_of self) sent
              ∧ length sent ≤ 0 ∧ (SimpleRAG.client self = None → sent = []))
      as Hnone by (exists []; by rewrite (right_id_L [] (++))).
    destruct Hr as [Hr|(text' & pages & Hr)]; injection Hr as -> ->;
      repeat split; try done.
    intros Hdocs. simpl. apply Forall_app. split; [done|]. by repeat constructor.
  - destruct (generate_response_effect self query user_id w)
      as (Hself & Hhistory & Hworld & Hsent).
    destruct (SimpleRAG.generate_response self query user_id w)
      as [[answer self'] w'].
    simpl in *. rewrite Hself. simpl. repeat split; try done.
    + intros Hex.
      destruct Hhistory as [->|[->|[a ->]]]; [done| |]; by constructor.
    + destruct Hsent as [->|[Hclient ->]].
      * exists []. rewrite (right_id_L [] (++)). repeat split; try done.
        simpl. lia.
      * eexists. split; [done|]. repeat split.
        -- repeat constructor; apply request_for_request_of.
        -- simpl. lia.
        -- intros Hnone. rewrite Hnone in Hclient. by destruct Hclient.
  - rewrite create_user_run. simpl. repeat split; try done.
    exists []. rewrite saved_outbound, (right_id_L [] (++)).
    by repeat split.
  - destruct (remove_document_effect self pdf_name w) as ([lines Hw] & Hr).
    destruct (SimpleRAG.remove_document self pdf_name w) as [[b self'] w'].
    simpl in *. subst w'.
    assert (∃ sent : list Request.t,
              outbound w = outbound w ++ sent ∧ Forall (request_of self) sent
              ∧ length sent ≤ 0 ∧ (SimpleRAG.client self = None → sent = []))
      as Hnone by (exists []; by rewrite (right_id_L [] (++))).
    destruct Hr as [Hr|(i & Hr)]; injection Hr as -> ->;
      repeat split; try done.
    intros Hdocs. simpl. by apply counted_delete.
  - repeat split; try done; try (intros _; constructor).
    exists []. simpl. by rewrite (right_id_L [] (++)).
Qed.

Lemma request_of_same self self' req :
  SimpleRAG.model self' = SimpleRAG.model self →
  request_of self' req → request_of self req.
Proof. unfold request_of. by intros ->. Qed.

(** A session: what it keeps and what it may send. *)
Lemma run_calls_steps calls self w :
  let r := run_calls PyPDF2 self calls w in
  SimpleRAG.model r.1 = SimpleRAG.model self
  ∧ SimpleRAG.client r.1 = SimpleRAG.client self
  ∧ (exchanges (SimpleRAG.conversation_history self) →
     exchanges (SimpleRAG.conversation_history r.1))
  ∧ (counted (SimpleRAG.documents self) → counted (SimpleRAG.documents r.1))
  ∧ ∃ sent,
      outbound r.2 = outbound w ++ sent
      ∧ Forall (request_of self) sent
      ∧ length sent ≤ questions calls
      ∧ (SimpleRAG.client self = None → sent = []).
Proof.
  simpl. revert self w. induction calls as [|c calls IH]; intros self w.
  - simpl. repeat split; try done. exists [].
    by rewrite (right_id_L [] (++)).
  - simpl. unfold bind.
    destruct (run_call_step c self w)
      as (Hmodel & Hclient & Hex & Hdocs & sent1 & Hout1 & Hreq1 & Hlen1 & Hnone1).
    destruct (run_call PyPDF2 self c w) as [self1 w1]. simpl in *.
    destruct (IH self1 w1)
      as (Hmodel' & Hclient' & Hex' & Hdocs' & sent2 & Hout2 & Hreq2 & Hlen2
          & Hnone2).
    repeat split; try congruence; try by auto.
    exists (sent1 ++ sent2). repeat split.
    + by rewrite Hout2, Hout1, (assoc_L (++)).
    + apply Forall_app. split; [done|].
      eapply Forall_impl; [done|]. intros req. by apply request_of_same.
    + rewrite length_app. destruct c; simpl in *; lia.
    + intros Hnone. rewrite Hnone1 by done. rewrite Hnone2 by congruence. done.
Qed.

(** X19. Without a configured client nothing is ever sent: when
    construction ends without a client (no [groq] package, no API key or an
    empty one, or a constructor that raises), then after any session of
    calls on the object the list of requests sent is what it was before
    construction, and the object still has no client. *)
Theorem session_without_client_sends_nothing model users_file calls w :
  configured_client w = None →
  let constructed := SimpleRAG.__init__ model users_file w in
  let r := run_calls PyPDF2 constructed.1 calls constructed.2 in
  outbound r.2 = outbound w ∧ SimpleRAG.client r.1 = None.
Proof.
  intros Hnone. simpl.
  destruct (rag_init_run model users_file w) as [lines ->]. simpl.
  destruct (run_calls_steps calls
              (SimpleRAG.mk
                 (or_str (SimpleRAG.or_opt model (environ w !! "GROQ_MODEL"))
                    SimpleRAG.DEFAULT_MODEL)
                 [] [] (configured_client w)
                 (UserContextDB.__init__ users_file w).1)
              (with_printed lines w))
    as (_ & Hclient & _ & _ & sent & Hout & _ & _ & Hsent).
  simpl in *. rewrite Hclient, Hout, Hsent by done.
  by rewrite (right_id_L [] (++)).
Qed.

(** X20. The conversation history is always made of exchanges, a user
    turn followed or not by the assistant turn that answers it: if that
    holds of an object, as it does of a new one, it holds after any session
    of calls. *)
Theorem session_history_exchanges calls self w :
  exchanges (SimpleRAG.conversation_history self) →
  exchanges (SimpleRAG.conversation_history (run_calls PyPDF2 self calls w).1).
Proof.
  intros Hex.
  destruct (run_calls_steps calls self w) as (_ & _ & Hkeeps & _). by apply Hkeeps.
Qed.


(** X22. Every document records the length of its text: if [char_count]
    is the length of [text] for the documents of an object, as for a new
    one with none, it is so after any session of calls. *)
Theorem session_documents_counted calls self w :
  counted (SimpleRAG.documents self) →
  counted (SimpleRAG.documents (run_calls PyPDF2 self calls w).1).
Proof.
  intros Hdocs.
  destruct (run_calls_steps calls self w) as (_ & _ & _ & Hkeeps & _).
  by apply Hkeeps.
Qed.

End Sessions.

(** ** The console: reading a line *)

Section ConsoleStrings.
Import Main.

Lemma rstrip_cons c s :
  rstrip (String c s)
  = match rstrip s with
    | EmptyString => if isspace c then EmptyString else String c EmptyString
    | kept => String c kept
    end.
Proof. done. Qed.

Lemma rstrip_rstrip s : rstrip (rstrip s) = rstrip s.
Proof.
  induction s as [|c s IH]; [done|]. rewrite rstrip_cons.
  destruct (rstrip s) as [|d kept] eqn:Hkept.
  - destruct (isspace c) eqn:Hc; [done|]. by rewrite rstrip_cons, Hc.
  - by rewrite rstrip_cons, IH.
Qed.

Lemma lstrip_head s :
  lstrip s = EmptyString ∨ ∃ c rest, lstrip s = String c rest ∧ isspace c = false.
Proof.
  induction s as [|c s IH]; [by left|]. simpl.
  destruct (isspace c) eqn:Hc; [done|]. right. by eauto.
Qed.

Lemma lstrip_rstrip_lstrip s : lstrip (rstrip (lstrip s)) = rstrip (lstrip s).
Proof.
  destruct (lstrip_head s) as [->|(c & rest & -> & Hc)]; [done|].
  rewrite rstrip_cons. destruct (rstrip rest); rewrite ?Hc; simpl;
    by rewrite Hc.
Qed.

Lemma strip_strip s : strip (strip s) = strip s.
Proof. unfold strip. by rewrite lstrip_rstrip_lstrip, rstrip_rstrip. Qed.

Lemma comma_free_lstrip s : comma_free s = true → comma_free (lstrip s) = true.
Proof.
  induction s as [|c s IH]; [done|]. simpl. intros Hs.
  apply andb_prop in Hs as [Hc Hs]. destruct (isspace c); [by apply IH|].
  simpl. by rewrite Hc, Hs.
Qed.

Lemma comma_free_rstrip s : comma_free s = true → comma_free (rstrip s) = true.
Proof.
  induction s as [|c s IH]; [done|]. intros Hs. simpl in Hs.
  apply andb_prop in Hs as [Hc Hs]. rewrite rstrip_cons.
  specialize (IH Hs). destruct (rstrip s) as [|d kept].
  - destruct (isspace c); [done|]. simpl. by rewrite Hc.
  - simpl in *. by rewrite Hc, IH.
Qed.

Lemma comma_free_strip s : comma_free s = true → comma_free (strip s) = true.
Proof. intros Hs. by apply comma_free_rstrip, comma_free_lstrip. Qed.

Lemma comma_free_snoc s c :
  comma_free s = true → Ascii.eqb c (Ascii.ascii_of_nat 44) = false →
  comma_free (s +:+ String c EmptyString) = true.
Proof.
  intros Hs Hc. induction s as [|d s IH].
  - simpl. by rewrite Hc.
  - simpl in Hs. apply andb_prop in Hs as [Hd Hs].
    rewrite append_cons. simpl. by rewrite Hd, IH.
Qed.

(** The pieces of a split hold no comma. *)
Lemma split_from_comma_free piece s :
  comma_free piece = true → Forall (λ p, comma_free p = true) (split_from piece s).
Proof.
  revert piece. induction s as [|c s IH]; intros piece Hpiece; simpl.
  - by repeat constructor.
  - destruct (Ascii.eqb c (Ascii.ascii_of_nat 44)) eqn:Hc.
    + constructor; [done|]. by apply IH.
    + by apply IH, comma_free_snoc.
Qed.

(** Splitting what starts with a piece that holds no comma. *)
Lemma split_from_app piece p s :
  comma_free p = true →
  split_from piece (p +:+ s) = split_from (piece +:+ p) s.
Proof.
  revert piece. induction p as [|c p IH]; intros piece Hp.
  - by rewrite append_nil_r.
  - simpl in Hp. apply andb_prop in Hp as [Hc Hp].
    rewrite append_cons. simpl.
    destruct (Ascii.eqb c (Ascii.ascii_of_nat 44)); [done|].
    rewrite IH by done. by rewrite append_assoc.
Qed.

Lemma split_from_comma piece s :
  split_from piece ("," +:+ s) = piece :: split_from EmptyString s.
Proof. done. Qed.

Lemma split_from_space piece s :
  split_from piece (" " +:+ s) = split_from (piece +:+ " ") s.
Proof. done. Qed.

Lemma split_from_tags piece p ps :
  comma_free p = true → Forall (λ p, comma_free p = true) ps →
  split_from piece (join ", " (p :: ps))
  = (piece +:+ p) :: ((λ p, " " +:+ p) <$> ps).
Proof.
  revert piece p. induction ps as [|q ps IH]; intros piece p Hp Hps.
  - change (join ", " [p]) with p.
    rewrite <-(append_nil_r p) at 1. by rewrite split_from_app.
  - inversion Hps as [|? ? Hq Hps']; subst.
    rewrite join_cons, split_from_app by done.
    change (", " +:+ join ", " (q :: ps))
      with ("," +:+ " " +:+ join ", " (q :: ps)).
    rewrite split_from_comma, split_from_space.
    by rewrite (IH (EmptyString +:+ " ") q).
Qed.

Lemma strip_space p : strip (" " +:+ p) = strip p.
Proof. done. Qed.

(** X23. The console reads a comma-separated line into tags: each is not
    empty, holds no comma and has no white space at either end. A list of
    such tags joined with a comma and a space, which is how the console
    prints preferences, reads back as the same list. *)
Theorem comma_separated_tags :
  (∀ s, Forall tag (comma_separated s))
  ∧ (∀ tags, Forall tag tags → comma_separated (join ", " tags) = tags).
Proof.
  split.
  - intros s. unfold comma_separated. apply Forall_forall. intros p Hp.
    apply list_elem_of_filter in Hp as [Hne Hp].
    apply list_elem_of_fmap in Hp as (q & -> & Hq).
    repeat split; [done|apply strip_strip|].
    apply comma_free_strip.
    pose proof (split_from_comma_free EmptyString s eq_refl) as Hall.
    rewrite Forall_forall in Hall. by apply Hall.
  - intros tags Htags. unfold comma_separated, split_commas.
    destruct tags as [|p ps]; [done|].
    assert (Forall (λ p, comma_free p = true) (p :: ps)) as Hfree
      by (eapply Forall_impl; [done|]; by intros ? (_ & _ & ?)).
    inversion Hfree as [|? ? Hp Hps]; subst.
    rewrite split_from_tags by done.
    change (EmptyString +:+ p) with p.
    rewrite fmap_cons, <-list_fmap_compose.
    assert (∀ l, Forall tag l →
              filter (λ p, p ≠ EmptyString) l = l) as Hkeep.
    { induction 1 as [|q l (Hq & _ & _) _ IH]; [done|].
      by rewrite filter_cons_True, IH. }
    assert (strip p :: ((strip ∘ (λ p, " " +:+ p)) <$> ps) = p :: ps) as ->.
    { inversion Htags as [|? ? (_ & Hstrip & _) Hrest]; subst.
      rewrite Hstrip. f_equal.
      clear -Hrest. induction Hrest as [|q l (_ & Hq & _) _ IH]; [done|].
      rewrite fmap_cons, IH. simpl. by rewrite strip_space, Hq. }
    by apply Hkeep.
Qed.

End ConsoleStrings.

(** ** The console: one pass and the loop *)

Section Console.
Import Main.
Context (PyPDF2 : SimpleRAG.PdfReader).
Implicit Types (rag : SimpleRAG.t) (w : World) (stdin : list string).

Lemma print_run line w : print line w = ((), with_printed [line] w).
Proof. done. Qed.

Lemma print_all_run lines w : print_all lines w = ((), with_printed lines w).
Proof.
  revert w. induction lines as [|line lines IH]; intros w.
  - simpl. unfold ret. by rewrite with_printed_nil.
  - simpl. unfold bind. rewrite print_run, IH.
    by rewrite with_printed_app.
Qed.

Lemma input_run prompt stdin w :
  input prompt stdin w
  = (match stdin with
     | [] => (None, [])
     | line :: stdin => (Some line, stdin)
     end, with_printed [prompt] w).
Proof. done. Qed.

Lemma quiet_refl rag w : quiet rag rag w w.
Proof. done. Qed.

Lemma quiet_printed rag rag' w w' lines :
  quiet rag rag' w w' → quiet rag rag' w (with_printed lines w').
Proof. by intros (? & ? & ?). Qed.

Lemma quiet_trans rag1 rag2 rag3 w1 w2 w3 :
  quiet rag1 rag2 w1 w2 → quiet rag2 rag3 w2 w3 → quiet rag1 rag3 w1 w3.
Proof. intros (? & ? & ?) (? & ? & ?). repeat split; congruence. Qed.

Lemma load_pdf_quiet rag pdf_path w :
  quiet rag (SimpleRAG.load_pdf PyPDF2 rag pdf_path w).1.2 w
    (SimpleRAG.load_pdf PyPDF2 rag pdf_path w).2.
Proof.
  destruct (load_pdf_effect PyPDF2 rag pdf_path w) as ([lines ->] & Hr).
  destruct Hr as [->|(text & pages & ->)]; done.
Qed.

Lemma load_command_quiet rag user_input w :
  quiet rag (load_command PyPDF2 rag user_input w).1 w
    (load_command PyPDF2 rag user_input w).2.
Proof.
  unfold load_command, bind, path_exists.
  destruct (bool_decide _); [|done]. rewrite print_run.
  pose proof (load_pdf_quiet rag (strip (slice_from 5 user_input))
                (with_printed ["⏳ Loading PDF..."] w)) as Hload.
  destruct (SimpleRAG.load_pdf _ _ _ _) as [[text rag'] w']. simpl in *.
  by apply (quiet_printed rag rag' w w' []) in Hload.
Qed.

Lemma list_docs_command_run rag w :
  ∃ lines, list_docs_command rag w = ((), with_printed lines w).
Proof.
  unfold list_docs_command.
  destruct (SimpleRAG.list_documents rag); [by eexists|].
  unfold bind. rewrite print_run, print_all_run, with_printed_app.
  by eexists.
Qed.

Lemma list_users_command_run rag w :
  ∃ lines, list_users_command rag w = ((), with_printed lines w).
Proof.
  unfold list_users_command.
  destruct (SimpleRAG.list_users rag); [by eexists|].
  unfold bind. rewrite print_run, print_all_run, with_printed_app.
  by eexists.
Qed.

Lemma remove_doc_command_quiet rag user_input w :
  quiet rag (remove_doc_command rag user_input w).1 w
    (remove_doc_command rag user_input w).2.
Proof.
  unfold remove_doc_command, bind.
  destruct (remove_document_effect rag (strip (slice_from 11 user_input)) w)
    as ([lines Hw] & Hr).
  destruct (SimpleRAG.remove_document _ _ _) as [[removed rag'] w'].
  simpl in *. subst w'.
  destruct Hr as [Hr|(i & Hr)]; injection Hr as -> ->; done.
Qed.

Lemma select_user_command_run rag current_user_id user_input w :
  ∃ line,
    select_user_command rag current_user_id user_input w
    = (match SimpleRAG.get_user rag (strip (slice_from 12 user_input)) with
       | Some _ => Some (strip (slice_from 12 user_input))
       | None => current_user_id
       end, with_printed [line] w).
Proof.
  unfold select_user_command.
  destruct (SimpleRAG.get_user rag _); by eexists.
Qed.

Lemma create_user_command_effect rag current_user_id stdin w :
  let r := create_user_command rag current_user_id stdin w in
  quiet rag r.1.1.1.2 w r.2
  ∧ (∃ read, stdin = read ++ r.1.2)
  ∧ r.1.1.1.1 ≠ Break
  ∧ (r.1.1.1.1 = EOFError → r.1.1.1.2 = rag).
Proof.
  simpl. unfold create_user_command, bind. rewrite input_run.
  destruct stdin as [|l1 stdin]; [by repeat split; try exists []|].
  cbn iota beta.
  destruct (negb (truthy_str (Some (strip l1))));
    [by repeat split; try exists [l1]|].
  rewrite input_run.
  destruct stdin as [|l2 stdin]; [by repeat split; try exists [l1]|].
  cbn iota beta.
  destruct (negb (truthy_str (Some (strip l2))));
    [by repeat split; try exists [l1; l2]|].
  rewrite input_run.
  destruct stdin as [|l3 stdin]; [by repeat split; try exists [l1; l2]|].
  cbn iota beta. rewrite input_run.
  destruct stdin as [|l4 stdin]; [by repeat split; try exists [l1; l2; l3]|].
  cbn iota beta. rewrite create_user_run. simpl. rewrite saved_outbound.
  repeat split; try done. by exists [l1; l2; l3; l4].
Qed.

Lemma question_effect rag current_user_id user_input w :
  let r := question rag current_user_id user_input w in
  SimpleRAG.model r.1 = SimpleRAG.model rag
  ∧ SimpleRAG.client r.1 = SimpleRAG.client rag
  ∧ ∃ sent,
      outbound r.2 = outbound w ++ sent
      ∧ length sent ≤ 1
      ∧ (truthy_str current_user_id = false ∨ SimpleRAG.client rag = None →
         sent = []).
Proof.
  simpl. unfold question.
  destruct (truthy_str current_user_id) eqn:Hcur; simpl.
  - unfold bind. rewrite print_run.
    destruct (generate_response_effect rag user_input current_user_id
                (with_printed
                   [LF +:+ "⏳ Generating personalized response..." +:+ LF] w))
      as (Hself & _ & _ & Hsent).
    destruct (SimpleRAG.generate_response _ _ _ _) as [[response rag'] w'].
    simpl in *. rewrite Hself. repeat split; try done.
    destruct Hsent as [->|[Hclient ->]].
    + exists []. rewrite (right_id_L [] (++)).
      split; [done|]. split; [simpl; lia|done].
    + eexists. split; [done|]. split; [simpl; lia|].
      intros [?|Hnone]; [done|]. rewrite Hnone in Hclient. by destruct Hclient.
  - repeat split; try done. exists [].
    rewrite (right_id_L [] (++)). split; [done|]. split; [simpl; lia|done].
Qed.

Lemma quiet_continue rag rag' current_user_id cur' line stdin w w' :
  quiet rag rag' w w' →
  pass_effect rag current_user_id (line :: stdin) w
    ((Continue, rag', cur', stdin), w').
Proof.
  intros (Hmodel & Hclient & Hout). unfold pass_effect. simpl.
  repeat split; try done; [|by exists line, []].
  exists []. rewrite (right_id_L [] (++)). split; [done|].
  split; [simpl; lia|done].
Qed.

(** One pass through the loop, in every case. *)
Lemma main_pass_effect rag current_user_id stdin w :
  pass_effect rag current_user_id stdin w
    (main_pass PyPDF2 rag current_user_id stdin w).
Proof.
  unfold main_pass, bind. rewrite input_run.
  set (w0 := with_printed _ w).
  assert (∀ rag' w', quiet rag rag' w0 w' → quiet rag rag' w w') as Hw0
    by (by intros ? ? (? & ? & ?)).
  destruct stdin as [|line stdin].
  { unfold pass_effect. simpl. repeat split; try done.
    exists []. rewrite (right_id_L [] (++)). split; [done|].
    split; [simpl; lia|done]. }
  cbn iota beta.
  destruct (negb (truthy_str (Some (strip line)))).
  { by apply quiet_continue, Hw0. }
  destruct (String.eqb (lower (strip line)) "exit") eqn:Hexit.
  { apply String.eqb_eq in Hexit. unfold pass_effect. simpl.
    repeat split; try done; [|by eauto].
    exists []. rewrite (right_id_L [] (++)). split; [done|].
    split; [simpl; lia|done]. }
  destruct (String.eqb (lower (strip line)) "help").
  { unfold print_help. rewrite print_all_run. by apply quiet_continue, Hw0. }
  destruct (startswith (lower (strip line)) "load ").
  { pose proof (load_command_quiet rag (strip line) w0) as Hquiet.
    destruct (load_command PyPDF2 rag (strip line) w0) as [rag' w'].
    by apply quiet_continue, Hw0. }
  destruct (String.eqb (lower (strip line)) "list_docs").
  { destruct (list_docs_command_run rag w0) as [lines ->].
    by apply quiet_continue, Hw0. }
  destruct (startswith (lower (strip line)) "remove_doc ").
  { pose proof (remove_doc_command_quiet rag (strip line) w0) as Hquiet.
    destruct (remove_doc_command rag (strip line) w0) as [rag' w'].
    by apply quiet_continue, Hw0. }
  destruct (String.eqb (lower (strip line)) "clear").
  { by apply quiet_continue, Hw0. }
  destruct (String.eqb (lower (strip line)) "list_users").
  { destruct (list_users_command_run rag w0) as [lines ->].
    by apply quiet_continue, Hw0. }
  destruct (String.eqb (lower (strip line)) "create_user").
  { destruct (create_user_command_effect rag current_user_id stdin w0)
      as (Hquiet & Hlen & Hbreak & Heof).
    destruct (create_user_command rag current_user_id stdin w0)
      as [[[[next rag'] cur'] rest] w'].
    simpl in *. apply Hw0 in Hquiet. destruct Hquiet as (? & ? & Hout).
    destruct Hlen as [read ->].
    unfold pass_effect. simpl. repeat split; try done.
    - exists []. rewrite (right_id_L [] (++)). split; [done|].
      split; [simpl; lia|done].
    - destruct next; [by exists line, read|done|by apply Heof]. }
  destruct (startswith (lower (strip line)) "select_user ").
  { destruct (select_user_command_run rag current_user_id (strip line) w0)
      as [printed ->].
    by apply quiet_continue, Hw0. }
  destruct (question_effect rag current_user_id (strip line) w0)
    as (Hmodel & Hclient & sent & Hout & Hlen & Hnone).
  destruct (question rag current_user_id (strip line) w0) as [rag' w'].
  simpl in *. unfold pass_effect. simpl.
  repeat split; try done; [by exists sent|by exists line, []].
Qed.



(** X25. While no user is selected, a pass through the loop sends no
    request, whatever line is typed: commands are carried out, and a
    question only gets the warning that no user is selected. *)
Theorem main_pass_without_user_sends_nothing rag current_user_id stdin w :
  truthy_str current_user_id = false →
  outbound (main_pass PyPDF2 rag current_user_id stdin w).2 = outbound w.
Proof.
  intros Hnone.
  destruct (main_pass_effect rag current_user_id stdin w)
    as (_ & _ & (sent & Hout & _ & Hsent) & _).
  rewrite Hout, Hsent by auto. by rewrite (right_id_L [] (++)).
Qed.

Lemma startswith_inv s prefix :
  startswith s prefix = true → ∃ rest, s = prefix +:+ rest.
Proof.
  unfold startswith. revert s.
  induction prefix as [|a prefix IH]; intros s Hs; [by exists s|].
  destruct s as [|b s]; [done|]. simpl in Hs.
  destruct (Ascii.ascii_dec a b) as [->|]; [|done].
  destruct (IH s Hs) as [rest ->]. by exists rest.
Qed.

Lemma lower_empty s : lower s = EmptyString → s = EmptyString.
Proof. by destruct s. Qed.

Lemma truthy_str_nonempty (s : string) :
  s ≠ EmptyString → truthy_str (Some s) = true.
Proof. intros Hs. unfold truthy_str. by destruct (String.eqb_spec s EmptyString). Qed.

(** The tests of a pass before the one for [load], on a line that starts
    with it. *)
Lemma main_pass_load rag current_user_id line stdin w :
  startswith (lower (strip line)) "load " = true →
  main_pass PyPDF2 rag current_user_id (line :: stdin) w
  = (let '(rag', w') :=
       load_command PyPDF2 rag (strip line)
         (with_printed [prompt_for current_user_id] w) in
     (Continue, rag', current_user_id, stdin, w')).
Proof.
  intros Hload. unfold main_pass, bind. rewrite input_run. cbn iota beta.
  destruct (startswith_inv _ _ Hload) as [rest Hlower].
  assert (strip line ≠ EmptyString) as Hne
    by (intros Heq; by rewrite Heq in Hlower).
  rewrite (truthy_str_nonempty _ Hne), Hload. cbn [negb].
  rewrite Hlower.
  change (String.eqb ("load " +:+ rest) "exit") with false.
  change (String.eqb ("load " +:+ rest) "help") with false.
  cbn iota. unfold prompt_for.
  by destruct (load_command PyPDF2 rag (strip line) _).
Qed.

(** X26. The [load] command reports success whatever [load_pdf] did. When
    the file exists but cannot be loaded, the pass prints the error of
    [load_pdf] and then that the PDF was loaded, with 0 characters; the
    object is unchanged. When no file exists at the path, [load_pdf] is not
    called and the pass prints that the file was not found. *)
Theorem load_command_reports_success rag current_user_id line stdin w :
  let pdf_path := strip (slice_from 5 (strip line)) in
  let r := main_pass PyPDF2 rag current_user_id (line :: stdin) w in
  startswith (lower (strip line)) "load " = true →
  (is_Some (files w !! pdf_path) → unreadable_pdf PyPDF2 pdf_path w →
     r.1 = (Continue, rag, current_user_id, stdin)
     ∧ ∃ e, stdout r.2
            = stdout w
                ++ [prompt_for current_user_id; "⏳ Loading PDF...";
                    "Error loading PDF: " +:+ e;
                    "✓ PDF loaded (0 characters)"])
    ∧ (files w !! pdf_path = None →
       r = (Continue, rag, current_user_id, stdin,
            with_printed
              [prompt_for current_user_id;
               "❌ File not found: " +:+ pdf_path] w)).
Proof.
  intros pdf_path r Hload. subst r.
  rewrite (main_pass_load _ _ _ _ _ Hload).
  unfold load_command, bind, path_exists. fold pdf_path.
  change (files (with_printed [prompt_for current_user_id] w)) with (files w).
  split.
  - intros Hfound Hbad. rewrite bool_decide_eq_true_2 by done.
    rewrite print_run, with_printed_app.
    destruct (load_pdf_unreadable PyPDF2 rag pdf_path
                (with_printed
                   ([prompt_for current_user_id] ++ ["⏳ Loading PDF..."]) w)
                Hbad) as [e ->].
    split; [done|]. exists e. simpl. by rewrite <-!(assoc_L (++)).
  - intros Hnone.
    rewrite bool_decide_eq_false_2 by (rewrite Hnone; by intros [? ?]).
    by rewrite print_run, with_printed_app.
Qed.

Lemma main_pass_select_user rag current_user_id line stdin w :
  startswith (lower (strip line)) "select_user " = true →
  main_pass PyPDF2 rag current_user_id (line :: stdin) w
  = (let '(cur', w') :=
       select_user_command rag current_user_id (strip line)
         (with_printed [prompt_for current_user_id] w) in
     (Continue, rag, cur', stdin, w')).
Proof.
  intros Hselect. unfold main_pass, bind. rewrite input_run. cbn iota beta.
  destruct (startswith_inv _ _ Hselect) as [rest Hlower].
  assert (strip line ≠ EmptyString) as Hne
    by (intros Heq; by rewrite Heq in Hlower).
  rewrite (truthy_str_nonempty _ Hne), Hselect. cbn [negb].
  rewrite Hlower.
  change (String.eqb ("select_user " +:+ rest) "exit") with false.
  change (String.eqb ("select_user " +:+ rest) "help") with false.
  change (startswith ("select_user " +:+ rest) "load ") with false.
  change (String.eqb ("select_user " +:+ rest) "list_docs") with false.
  change (startswith ("select_user " +:+ rest) "remove_doc ") with false.
  change (String.eqb ("select_user " +:+ rest) "clear") with false.
  change (String.eqb ("select_user " +:+ rest) "list_users") with false.
  change (String.eqb ("select_user " +:+ rest) "create_user") with false.
  cbn iota. unfold prompt_for.
  by destruct (select_user_command rag current_user_id (strip line) _).
Qed.

(** X27. The [select_user] command switches to the user named on the
    line when the store has it, and otherwise leaves the selection as it
    was; either way the object is unchanged, no file is written and nothing
    is sent. *)
Theorem select_user_switches rag current_user_id line stdin w :
  let user_id := strip (slice_from 12 (strip line)) in
  let r := main_pass PyPDF2 rag current_user_id (line :: stdin) w in
  startswith (lower (strip line)) "select_user " = true →
  r.1 = (Continue, rag,
         match SimpleRAG.get_user rag user_id with
         | Some _ => Some user_id
         | None => current_user_id
         end, stdin)
  ∧ files r.2 = files w
  ∧ outbound r.2 = outbound w.
Proof.
  intros user_id r Hselect. subst r.
  rewrite (main_pass_select_user _ _ _ _ _ Hselect).
  destruct (select_user_command_run rag current_user_id (strip line)
              (with_printed [prompt_for current_user_id] w)) as [printed ->].
  done.
Qed.

Lemma main_pass_create_user rag current_user_id line stdin w :
  lower (strip line) = "create_user" →
  main_pass PyPDF2 rag current_user_id (line :: stdin) w
  = create_user_command rag current_user_id stdin
      (with_printed [prompt_for current_user_id] w).
Proof.
  intros Hlower. unfold main_pass, bind. rewrite input_run. cbn iota beta.
  assert (strip line ≠ EmptyString) as Hne
    by (intros Heq; by rewrite Heq in Hlower).
  rewrite (truthy_str_nonempty _ Hne). cbn [negb]. by rewrite Hlower.
Qed.

(** X28. The [create_user] command asks for an id, a name, preferences
    and history, in this order, and stops at the first of id and name that
    is blank: nothing is created and the lines not yet asked for are left
    on the input. With both given, the user is created from the stripped
    id and name and the tags read from the two other lines, with the merge
    of [create_or_update_user]: a line without tags leaves an existing
    list as it is. The new user becomes the selected one. *)
Theorem create_user_dialogue rag current_user_id line id_line name_line
    prefs_line history_line stdin w :
  let user_id := strip id_line in
  let user_name := strip name_line in
  let r :=
    main_pass PyPDF2 rag current_user_id
      (line :: id_line :: name_line :: prefs_line :: history_line :: stdin)
      w in
  lower (strip line) = "create_user" →
  (user_id = EmptyString →
   r.1 = (Continue, rag, current_user_id,
          name_line :: prefs_line :: history_line :: stdin)
   ∧ files r.2 = files w)
  ∧ (user_id ≠ EmptyString → user_name = EmptyString →
     r.1 = (Continue, rag, current_user_id, prefs_line :: history_line :: stdin)
     ∧ files r.2 = files w)
  ∧ (user_id ≠ EmptyString → user_name ≠ EmptyString →
     r.1.1.1.1 = Continue
     ∧ r.1.1.2 = Some user_id
     ∧ r.1.2 = stdin
     ∧ SimpleRAG.get_user r.1.1.1.2 user_id
       = Some (upserted
                 (initial_profile (SimpleRAG.user_db rag) user_id)
                 (Some user_name)
                 (Some (comma_separated (strip prefs_line)))
                 (Some (comma_separated (strip history_line))))
     ∧ SimpleRAG.documents r.1.1.1.2 = SimpleRAG.documents rag
     ∧ SimpleRAG.conversation_history r.1.1.1.2
       = SimpleRAG.conversation_history rag).
Proof.
  intros user_id user_name r Hlower. subst r.
  rewrite (main_pass_create_user _ _ _ _ _ Hlower).
  unfold create_user_command, bind. rewrite input_run. cbn iota beta.
  fold user_id. split; [|split].
  - intros ->. done.
  - intros Hid Hname. rewrite (truthy_str_nonempty _ Hid). cbn [negb].
    rewrite input_run. cbn iota beta. fold user_name. by rewrite Hname.
  - intros Hid Hname. rewrite (truthy_str_nonempty _ Hid). cbn [negb].
    rewrite input_run. cbn iota beta. fold user_name.
    rewrite (truthy_str_nonempty _ Hname). cbn [negb].
    rewrite !input_run. cbn iota beta. rewrite create_user_run.
    unfold SimpleRAG.get_user, UserContextDB.get_user. simpl.
    by rewrite lookup_insert_eq.
Qed.

End Console.

(** ** Prompt assembly *)

Section Assembly.
Implicit Types (p : Profile.t) (self : SimpleRAG.t).

(** C4. For a profile whose history has more than three entries, the lines
    of the formatted user context end with the history line, and that line
    is the label followed by the last three entries, in their order, joined
    with a comma and a space; the entries before them are not on it. The
    lines before it are those of the same profile without history. *)
Theorem format_user_context_last_three p :
  3 < length (Profile.purchase_history p) →
  ∃ older a b c,
    Profile.purchase_history p = older ++ [a; b; c] ∧ older ≠ []
    ∧ SimpleRAG._format_user_context_lines p
      = SimpleRAG._format_user_context_lines (without_history p)
          ++ ["Recent interactions: " +:+ a +:+ ", " +:+ b +:+ ", " +:+ c]
    ∧ SimpleRAG._format_user_context p
      = SimpleRAG._format_user_context (without_history p) +:+ LF
          +:+ "Recent interactions: " +:+ a +:+ ", " +:+ b +:+ ", " +:+ c.
Proof.
  intros Hlen.
  destruct (last_three _ Hlen) as (older & a & b & c & Hhist & Holder).
  exists older, a, b, c. split; [done|]. split; [done|].
  assert (SimpleRAG._format_user_context_lines p
          = SimpleRAG._format_user_context_lines (without_history p)
              ++ ["Recent interactions: " +:+ a +:+ ", " +:+ b +:+ ", " +:+ c])
    as Hlines.
  { pose proof (slice_last_app older [a; b; c]) as Hslice.
    change (length [a; b; c]) with 3 in Hslice.
    unfold SimpleRAG._format_user_context_lines, without_history. simpl.
    rewrite Hhist, Hslice.
    destruct older; [done|]. simpl.
    by destruct (Profile.preferences p). }
  split; [done|].
  unfold SimpleRAG._format_user_context. rewrite Hlines.
  rewrite join_snoc; [done|].
  unfold SimpleRAG._format_user_context_lines. simpl.
  by destruct (Profile.preferences p).
Qed.

Lemma create_user_result self user_id name preferences history w :
  let profile :=
    upserted (initial_profile (SimpleRAG.user_db self) user_id) name
      preferences history in
  (SimpleRAG.create_user self user_id name preferences history w).1
  = (profile,
     SimpleRAG.mk (SimpleRAG.model self) (SimpleRAG.documents self)
       (SimpleRAG.conversation_history self) (SimpleRAG.client self)
       (UserContextDB.mk
          (<[user_id := profile]> (UserContextDB.users (SimpleRAG.user_db self)))
          (UserContextDB.users_file (SimpleRAG.user_db self)))).
Proof.
  simpl. unfold SimpleRAG.create_user, bind.
  pose proof (create_or_update_user_result (SimpleRAG.user_db self) user_id
                name preferences history w) as Hstep.
  destruct (UserContextDB.create_or_update_user _ _ _ _ _ w) as [[p db] w1].
  simpl in *. by injection Hstep as -> ->.
Qed.

Lemma generate_response_sends self query user_id c w :
  SimpleRAG.documents self ≠ [] →
  SimpleRAG.client self = Some c →
  outbound (SimpleRAG.generate_response self query user_id w).2
  = outbound w ++ [request_for self query user_id].
Proof.
  intros Hdocs Hclient.
  rewrite (generate_response_loaded _ _ _ _ Hdocs), Hclient. simpl.
  by destruct (c _).
Qed.

(** C8. Upsert user [u1] with name [Ann], preferences [x], [y] and history
    [a], [b], [c], [d]; with one loaded document of text [T] and the question
    [What is x?], the assembled messages are two, in this order: the system
    message with the fixed instruction, then one user message. The user
    message holds [T], then [x, y], then [b, c, d], then [What is x?], in
    that order, and these messages are what a configured client is sent. *)
Theorem assembled_prompt_scenario self doc w :
  SimpleRAG.documents self = [doc] →
  Doc.text doc = "T" →
  let rag :=
    (SimpleRAG.create_user self "u1" (Some "Ann") (Some ["x"; "y"])
       (Some ["a"; "b"; "c"; "d"]) w).1.2 in
  let assembled :=
    [Message.mk "system" SimpleRAG.system_prompt;
     Message.mk "user" scenario_payload] in
  SimpleRAG.messages rag "What is x?" (Some "u1") = assembled
  ∧ (∃ s0 s1 s2 s3 s4 : string,
       scenario_payload
       = s0 +:+ "T" +:+ s1 +:+ "x, y" +:+ s2 +:+ "b, c, d" +:+ s3
           +:+ "What is x?" +:+ s4)
  ∧ (∀ c w',
       SimpleRAG.client rag = Some c →
       outbound (SimpleRAG.generate_response rag "What is x?" (Some "u1") w').2
       = outbound w'
           ++ [Request.mk (SimpleRAG.model rag) assembled
                 (QArith_base.Qmake 7 10) 1000]).
Proof.
  intros Hdocs Htext. simpl.
  rewrite create_user_result. simpl.
  set (rag := SimpleRAG.mk _ _ _ _ _).
  assert (SimpleRAG.messages rag "What is x?" (Some "u1")
          = [Message.mk "system" SimpleRAG.system_prompt;
             Message.mk "user" scenario_payload]) as Hmessages.
  { unfold SimpleRAG.messages, SimpleRAG.user_message,
      SimpleRAG.user_context_str, SimpleRAG.get_user, UserContextDB.get_user.
    subst rag. simpl. rewrite lookup_insert_eq, Hdocs. simpl.
    by rewrite Htext. }
  split; [done|]. split.
  - exists ("Document context:" +:+ LF), (LF +:+ LF +:+ "User Context:" +:+ LF
              +:+ "Name: Ann" +:+ LF +:+ "Preferences: "),
      (LF +:+ "Recent interactions: "), (LF +:+ LF +:+ "Question: "),
      EmptyString.
    reflexivity.
  - intros c w' Hclient.
    rewrite (generate_response_sends rag _ _ c); [|by subst rag; simpl; rewrite Hdocs|done].
    unfold request_for. by rewrite Hmessages.
Qed.

(** X29. The user message without a profile. With no user id, or an empty
    one, it is the document context, the texts of the documents in their
    order with a blank line between them, and then the question: there is
    no user-context block. With an id that the store does not know, the
    block is a single line that names the id and says that there is no
    profile data. *)
Theorem user_message_without_profile self query user_id :
  let context :=
    join (LF +:+ LF) (Doc.text <$> SimpleRAG.documents self) in
  (truthy_str user_id = false →
   SimpleRAG.user_message self query user_id
   = "Document context:" +:+ LF +:+ context +:+ LF +:+ LF +:+ "Question: "
       +:+ query)
  ∧ (∀ uid,
       user_id = Some uid → uid ≠ EmptyString →
       SimpleRAG.get_user self uid = None →
       SimpleRAG.user_message self query user_id
       = "Document context:" +:+ LF +:+ context +:+ LF +:+ LF
           +:+ "User Context:" +:+ LF +:+ "User ID: " +:+ uid
           +:+ " (no profile data available)" +:+ LF +:+ LF +:+ "Question: "
           +:+ query).
Proof.
  simpl. split.
  - intros Hfalsy. unfold SimpleRAG.user_message, SimpleRAG.user_context_str.
    rewrite Hfalsy. cbn [truthy_str String.eqb negb].
    by rewrite !append_assoc.
  - intros uid -> Hid Hnone.
    unfold SimpleRAG.user_message, SimpleRAG.user_context_str.
    unfold SimpleRAG.get_user in Hnone.
    assert (truthy_str (Some uid) = true) as ->
      by (unfold truthy_str; by destruct (String.eqb_spec uid EmptyString)).
    cbn [default from_option id]. rewrite Hnone.
    change (truthy_str (Some ("User ID: " +:+ uid
                                +:+ " (no profile data available)")))
      with true.
    cbn iota. by rewrite !append_assoc.
Qed.

Lemma slice_last_short {A} (n : nat) (items : list A) :
  length items ≤ n → slice_last n items = items.
Proof.
  intros Hlen. unfold slice_last.
  by replace (length items - n) with 0 by lia.
Qed.

(** X30. For a profile whose history has at most three entries the history
    line lists them all, in their order; a profile with no history has no
    history line, and a profile with neither preferences nor history is
    formatted as its name line alone. *)
Theorem format_user_context_short_history p :
  length (Profile.purchase_history p) ≤ 3 →
  SimpleRAG._format_user_context_lines p
  = SimpleRAG._format_user_context_lines (without_history p)
      ++ (if decide (Profile.purchase_history p = []) then []
          else ["Recent interactions: "
                  +:+ join ", " (Profile.purchase_history p)])
  ∧ (Profile.preferences p = [] → Profile.purchase_history p = [] →
     SimpleRAG._format_user_context p = "Name: " +:+ Profile.name p).
Proof.
  intros Hlen. split.
  - unfold SimpleRAG._format_user_context_lines, without_history. simpl.
    rewrite (slice_last_short 3 _ Hlen).
    destruct (Profile.purchase_history p) as [|h hs]; simpl.
    + by rewrite (right_id_L [] (++)).
    + by destruct (Profile.preferences p).
  - intros Hprefs Hhist.
    unfold SimpleRAG._format_user_context, SimpleRAG._format_user_context_lines.
    by rewrite Hprefs, Hhist.
Qed.

End Assembly.

(** ** The properties at sample values *)


Lemma generate_response_no_documents_witness :
  SimpleRAG.documents (SimpleRAG.set_documents sample_rag []) = []
  ∧ (SimpleRAG.generate_response (SimpleRAG.set_documents sample_rag [])
       "What is x?" (Some "u1") empty_world).1.1
    = SimpleRAG.NO_PDF_LOADED.
Proof.
  split; [reflexivity|].
  rewrite (proj1 (generate_response_no_documents
                    (SimpleRAG.set_documents sample_rag []) "What is x?"
                    (Some "u1") empty_world eq_refl)).
  reflexivity.
Defined.

Lemma generate_response_unconfigured_witness :
  SimpleRAG.documents sample_rag ≠ []
  ∧ SimpleRAG.client sample_rag = None
  ∧ (SimpleRAG.generate_response sample_rag "What is x?" None empty_world).1.1
    = SimpleRAG.CLIENT_NOT_CONFIGURED.
Proof.
  split; [discriminate|]. split; [reflexivity|].
  apply (generate_response_unconfigured sample_rag "What is x?" None
           empty_world); [discriminate|reflexivity].
Defined.

Lemma generate_response_history_witness :
  let rag :=
    SimpleRAG.mk SimpleRAG.DEFAULT_MODEL [sample_doc] []
      (Some (failing_client "connection refused"))
      (UserContextDB.mk ∅ "users.json") in
  let result := SimpleRAG.generate_response rag "What is x?" None empty_world in
  SimpleRAG.documents rag ≠ []
  ∧ result.1.1 = "Error generating response: connection refused"
  ∧ SimpleRAG.conversation_history result.1.2
    = [Message.mk "user" "What is x?"].
Proof.
  split; [discriminate|].
  apply (generate_response_history
           (SimpleRAG.mk SimpleRAG.DEFAULT_MODEL [sample_doc] []
              (Some (failing_client "connection refused"))
              (UserContextDB.mk ∅ "users.json"))
           "What is x?" None empty_world).
  discriminate.
Defined.

Lemma format_user_context_last_three_witness :
  3 < length (Profile.purchase_history sample_profile)
  ∧ ∃ older a b c,
      Profile.purchase_history sample_profile = older ++ [a; b; c]
      ∧ older ≠ []
      ∧ SimpleRAG._format_user_context sample_profile
        = SimpleRAG._format_user_context (without_history sample_profile)
            +:+ LF +:+ "Recent interactions: " +:+ a +:+ ", " +:+ b
            +:+ ", " +:+ c.
Proof.
  split; [simpl; lia|].
  destruct (format_user_context_last_three sample_profile)
    as (older & a & b & c & Hhist & Holder & _ & Hformat); [simpl; lia|].
  exists older, a, b, c. split; [exact Hhist|]. split; [exact Holder|].
  exact Hformat.
Defined.

Lemma upsert_merge_semantics_witness :
  filter (λ c, up_id c = "u1") sample_calls ≠ []
  ∧ ∃ p,
      UserContextDB.get_user
        (create_or_update_users (UserContextDB.mk ∅ "users.json")
           sample_calls empty_world).1 "u1" = Some p
      ∧ Profile.name p = "Ann"
      ∧ Profile.preferences p = ["x"; "y"]
      ∧ Profile.purchase_history p = ["a"].
Proof.
  assert (filter (λ c, up_id c = "u1") sample_calls ≠ []) as Hmine
    by (vm_compute; discriminate).
  split; [exact Hmine|].
  destruct (upsert_merge_semantics (UserContextDB.mk ∅ "users.json") "u1"
              sample_calls empty_world Hmine)
    as (p & Hget & Hname & Hprefs & Hhist & _).
  exists p. split; [exact Hget|]. split; [exact Hname|].
  split; [exact Hprefs|exact Hhist].
Defined.


Lemma assembled_prompt_scenario_witness :
  SimpleRAG.documents sample_rag = [sample_doc]
  ∧ Doc.text sample_doc = "T"
  ∧ SimpleRAG.messages
      (SimpleRAG.create_user sample_rag "u1" (Some "Ann") (Some ["x"; "y"])
         (Some ["a"; "b"; "c"; "d"]) empty_world).1.2
      "What is x?" (Some "u1")
    = [Message.mk "system" SimpleRAG.system_prompt;
       Message.mk "user" scenario_payload].
Proof.
  split; [reflexivity|]. split; [reflexivity|].
  apply (assembled_prompt_scenario sample_rag sample_doc empty_world);
    reflexivity.
Defined.

(** ** The further properties at sample values *)

Lemma create_or_update_user_frame_witness :
  UserContextDB.get_user
    (UserContextDB.create_or_update_user sample_db "u2" (Some "Bob") None
       None empty_world).1.2 "u1"
  = Some sample_profile.
Proof.
  apply (create_or_update_user_frame sample_db "u2" (Some "Bob") None None
           "u1" empty_world).
  discriminate.
Defined.

Lemma create_or_update_user_keeps_nonempty_witness :
  Profile.preferences
    (UserContextDB.create_or_update_user sample_db "u1" (Some EmptyString)
       (Some []) None empty_world).1.1 ≠ [].
Proof.
  apply (create_or_update_user_keeps_nonempty sample_db "u1" sample_profile
           (Some EmptyString) (Some []) None empty_world);
    [reflexivity|discriminate].
Defined.

Lemma create_or_update_user_unwritable_witness :
  files
    (UserContextDB.create_or_update_user
       (UserContextDB.mk ∅ "users.json") "u1" (Some "Ann") None None
       read_only_world).2
  = files read_only_world.
Proof.
  apply (create_or_update_user_unwritable (UserContextDB.mk ∅ "users.json")
           "u1" (Some "Ann") None None
           "[Errno 13] Permission denied: 'users.json'" read_only_world).
  reflexivity.
Defined.

Lemma delete_user_removes_witness :
  UserContextDB.get_user
    (UserContextDB.delete_user sample_db "u1" empty_world).1.2 "u1" = None
  ∧ UserContextDB.delete_user sample_db "u2" empty_world
    = (false, sample_db, empty_world).
Proof.
  split.
  - apply (proj1 (delete_user_removes sample_db "u1" empty_world)).
    by exists sample_profile.
  - apply (proj2 (delete_user_removes sample_db "u2" empty_world)).
    reflexivity.
Defined.

Lemma delete_undoes_create_witness :
  UserContextDB.users
    (UserContextDB.delete_user
       (UserContextDB.create_or_update_user sample_db "u2" (Some "Bob") None
          None empty_world).1.2 "u2"
       (UserContextDB.create_or_update_user sample_db "u2" (Some "Bob") None
          None empty_world).2).1.2
  = UserContextDB.users sample_db.
Proof.
  apply (delete_undoes_create sample_db "u2" (Some "Bob") None None
           empty_world).
  reflexivity.
Defined.

Lemma clear_all_empties_witness :
  files (UserContextDB.clear_all sample_db empty_world).2 !! "users.json"
  = Some "{}"
  ∧ UserContextDB.users
      (UserContextDB.__init__ "users.json"
         (UserContextDB.clear_all sample_db empty_world).2).1 = ∅.
Proof.
  destruct (clear_all_empties sample_db empty_world
              (UserContextDB.clear_all sample_db empty_world).2)
    as (Hrestart & _ & Hfile); [reflexivity|].
  split; [exact Hfile|]. apply Hrestart; reflexivity.
Defined.

Lemma init_missing_file_witness :
  UserContextDB.__init__ "users.json" empty_world
  = (UserContextDB.mk ∅ "users.json", empty_world).
Proof. apply (init_missing_file "users.json" empty_world). reflexivity. Defined.


Lemma run_db_calls_keyed_witness :
  Profile.user_id (Profile.mk "u2" "Bob" [] []) = "u2".
Proof.
  apply (run_db_calls_keyed
           [CreateOrUpdateUser (mkUpsert "u1" (Some "Ann") None None);
            CreateOrUpdateUser (mkUpsert "u2" (Some "Bob") None None);
            DeleteUser "u1"]
           (UserContextDB.mk ∅ "users.json") empty_world);
    [apply map_Forall_empty|reflexivity].
Defined.

Lemma load_pdf_failure_witness :
  (SimpleRAG.load_pdf sample_reader sample_rag "notes.txt" sample_pdf_world).1
  = (EmptyString, sample_rag).
Proof.
  apply (load_pdf_failure sample_reader sample_rag "notes.txt"
           sample_pdf_world).
  right. right. exists "plain text". split; reflexivity.
Defined.

Lemma load_pdf_appends_witness :
  SimpleRAG.documents
    (SimpleRAG.load_pdf sample_reader sample_rag "docs/menu.pdf"
       sample_pdf_world).1.2
  = [sample_doc;
     Doc.mk "menu.pdf"
       (LF +:+ "--- menu.pdf Page 1 ---" +:+ LF +:+ "Hello" +:+ LF
          +:+ "--- menu.pdf Page 2 ---" +:+ LF)
       2 55].
Proof.
  apply (load_pdf_appends sample_reader sample_rag "docs/menu.pdf"
           [Some "Hello"; None] sample_pdf_world).
  exists "%PDF-1.4". repeat split; reflexivity.
Defined.

Lemma load_then_remove_restores_witness :
  (SimpleRAG.remove_document
     (SimpleRAG.load_pdf sample_reader
        (SimpleRAG.set_documents sample_rag []) "docs/menu.pdf"
        sample_pdf_world).1.2
     "menu.pdf"
     (SimpleRAG.load_pdf sample_reader
        (SimpleRAG.set_documents sample_rag []) "docs/menu.pdf"
        sample_pdf_world).2).1
  = (true, SimpleRAG.set_documents sample_rag []).
Proof.
  apply (load_then_remove_restores sample_reader
           (SimpleRAG.set_documents sample_rag []) "docs/menu.pdf"
           [Some "Hello"; None] sample_pdf_world).
  - exists "%PDF-1.4". repeat split; reflexivity.
  - constructor.
Defined.

Lemma load_duplicate_then_remove_witness :
  SimpleRAG.documents
    (SimpleRAG.remove_document
       (SimpleRAG.load_pdf sample_reader sample_rag "docs/menu.pdf"
          sample_pdf_world).1.2
       "menu.pdf"
       (SimpleRAG.load_pdf sample_reader sample_rag "docs/menu.pdf"
          sample_pdf_world).2).1.2
  = [loaded_entry "docs/menu.pdf" [Some "Hello"; None]].
Proof.
  apply (load_duplicate_then_remove sample_reader sample_rag "docs/menu.pdf"
           [Some "Hello"; None] [] sample_doc [] sample_pdf_world).
  - exists "%PDF-1.4". repeat split; reflexivity.
  - reflexivity.
  - constructor.
  - reflexivity.
Defined.


Lemma session_without_client_sends_nothing_witness :
  outbound
    (run_calls sample_reader
       (SimpleRAG.__init__ None "users.json" sample_pdf_world).1
       sample_session
       (SimpleRAG.__init__ None "users.json" sample_pdf_world).2).2
  = [].
Proof.
  apply (session_without_client_sends_nothing sample_reader None "users.json"
           sample_session sample_pdf_world).
  reflexivity.
Defined.

Lemma session_history_exchanges_witness :
  exchanges
    (SimpleRAG.conversation_history
       (run_calls sample_reader sample_rag sample_session sample_pdf_world).1).
Proof.
  apply (session_history_exchanges sample_reader sample_session sample_rag
           sample_pdf_world).
  constructor.
Defined.

Lemma session_documents_counted_witness :
  counted
    (SimpleRAG.documents
       (run_calls sample_reader sample_rag sample_session sample_pdf_world).1).
Proof.
  apply (session_documents_counted sample_reader sample_session sample_rag
           sample_pdf_world).
  repeat constructor.
Defined.

Lemma user_message_without_profile_witness :
  SimpleRAG.user_message sample_rag "What is x?" (Some EmptyString)
  = "Document context:" +:+ LF +:+ "T" +:+ LF +:+ LF
      +:+ "Question: What is x?"
  ∧ SimpleRAG.user_message sample_rag "What is x?" (Some "ghost")
    = "Document context:" +:+ LF +:+ "T" +:+ LF +:+ LF +:+ "User Context:"
        +:+ LF +:+ "User ID: ghost (no profile data available)" +:+ LF +:+ LF
        +:+ "Question: What is x?".
Proof.
  split.
  - apply (proj1 (user_message_without_profile sample_rag "What is x?"
                    (Some EmptyString))).
    reflexivity.
  - apply (proj2 (user_message_without_profile sample_rag "What is x?"
                    (Some "ghost")) "ghost");
      [reflexivity|discriminate|reflexivity].
Defined.

Lemma format_user_context_short_history_witness :
  SimpleRAG._format_user_context_lines (Profile.mk "u3" "Cy" [] ["a"; "b"])
  = ["Name: Cy"; "Recent interactions: a, b"].
Proof.
  apply (proj1 (format_user_context_short_history
                  (Profile.mk "u3" "Cy" [] ["a"; "b"])
                  ltac:(simpl; lia))).
Defined.

Lemma comma_separated_tags_witness :
  Main.comma_separated (join ", " ["vegan"; "low calorie"])
  = ["vegan"; "low calorie"].
Proof.
  apply (proj2 comma_separated_tags ["vegan"; "low calorie"]).
  repeat constructor; discriminate.
Defined.


Lemma main_pass_without_user_sends_nothing_witness :
  outbound
    (Main.main_pass sample_reader
       (SimpleRAG.mk SimpleRAG.DEFAULT_MODEL [sample_doc] []
          (Some (failing_client "connection refused")) sample_db)
       None ["What is x?"] empty_world).2
  = [].
Proof.
  apply (main_pass_without_user_sends_nothing sample_reader
           (SimpleRAG.mk SimpleRAG.DEFAULT_MODEL [sample_doc] []
              (Some (failing_client "connection refused")) sample_db)
           None ["What is x?"] empty_world).
  reflexivity.
Defined.

Lemma load_command_reports_success_witness :
  ∃ e,
    stdout
      (Main.main_pass sample_reader sample_rag None ["load notes.txt"]
         sample_pdf_world).2
    = [prompt_for None; "⏳ Loading PDF..."; "Error loading PDF: " +:+ e;
       "✓ PDF loaded (0 characters)"].
Proof.
  destruct (proj1 (load_command_reports_success sample_reader sample_rag None
                     "load notes.txt" [] sample_pdf_world eq_refl))
    as (_ & e & He).
  - exists "plain text". reflexivity.
  - right. right. exists "plain text". split; reflexivity.
  - exists e. exact He.
Defined.

Lemma select_user_switches_witness :
  (Main.main_pass sample_reader sample_rag_with_user None
     ["  Select_User u1 "; "What is x?"] empty_world).1
  = (Main.Continue, sample_rag_with_user, Some "u1", ["What is x?"]).
Proof.
  apply (select_user_switches sample_reader sample_rag_with_user None
           "  Select_User u1 " ["What is x?"] empty_world).
  reflexivity.
Defined.

Lemma create_user_dialogue_witness :
  SimpleRAG.get_user
    (Main.main_pass sample_reader sample_rag None
       ["create_user"; " u1 "; "Ann"; "x, y"; "a,b,,c , d"; "What is x?"]
       empty_world).1.1.1.2
    "u1"
  = Some sample_profile.
Proof.
  apply (proj2 (proj2 (create_user_dialogue sample_reader sample_rag None
                         "create_user" " u1 " "Ann" "x, y" "a,b,,c , d"
                         ["What is x?"] empty_world eq_refl)));
    discriminate.
Defined.
